(** * The Solid generator of Mitosis: a shallow embedding

    Source: [packages/core/src/generators/solid/index.ts].

    Conventions of the embedding.
    - A JS string is a [string]; its characters stand for the UTF-16 code
      units 0..255.
    - A JS object used as an ordered dictionary ([properties], [bindings],
      [context.set]) is an association list in [for ... in] order, with
      pairwise distinct keys that are not array indices.
    - The component is deep-cloned through JSON at entry ([fastClone]), so no
      field holds [undefined]: an optional field is an [option].
    - In-place mutation of a node is explicit state passing: a function that
      mutates its argument returns the new node next to its result.
    - The nodes of a component are those reached from its [children], and
      from the [children] of its [subComponents], through [children] and
      [meta.else]: these are the fields whose type holds nodes.
    - A step that may throw (a plugin, the formatter) returns an [option].
    - What the file imports from other files of the package is a [Variable]
      of the section that uses it. *)

From Stdlib Require Import Strings.String Strings.Ascii Lists.List Bool Arith Lia.
From Stdlib Require Import Numbers.DecimalString.
From Stdlib Require Numbers.DecimalNat.
Import ListNotations.

#[local] Set Warnings "-register-all".

Open Scope list_scope.
Open Scope string_scope.

(** ** JavaScript primitives used by the generator *)

Module JS.

(** Line feed, as written in a template literal that spans lines. *)
Definition nl : string := String "010" EmptyString.

(** The double quote character. *)
Definition dq : string := String "034" EmptyString.

(** Truthiness of a string: only the empty string is falsy. *)
Definition truthy (s : string) : bool :=
  match s with
  | EmptyString => false
  | String _ _ => true
  end.

(** [`${v}`] and [String(v)] for an optional string. *)
Definition show (v : option string) : string :=
  match v with
  | Some s => s
  | None => "undefined"
  end.

(** [Array.prototype.push]. *)
Definition push {A : Type} (l : list A) (a : A) : list A := app l [a].

(** [Array.prototype.join]. *)
Definition join (sep : string) (l : list string) : string :=
  String.concat sep l.

(** [String.prototype.startsWith]. *)
Definition startsWith (s p : string) : bool := String.prefix p s.

(** [String.prototype.includes]. *)
Fixpoint includes (s sub : string) : bool :=
  String.prefix sub s ||
  match s with
  | EmptyString => false
  | String _ s' => includes s' sub
  end.

(** White space and line terminators among the code units 0..255. *)
Definition isWhiteSpace (c : ascii) : bool :=
  let n := nat_of_ascii c in
  ((n =? 9) || (n =? 10) || (n =? 11) || (n =? 12) || (n =? 13)
   || (n =? 32) || (n =? 160))%nat.

Fixpoint trimStart (s : string) : string :=
  match s with
  | EmptyString => EmptyString
  | String c s' => if isWhiteSpace c then trimStart s' else s
  end.

(** Drops the white space at the end: a character is kept when it is not
    white space or when something is kept after it. *)
Fixpoint trimEnd (s : string) : string :=
  match s with
  | EmptyString => EmptyString
  | String c s' =>
      match trimEnd s' with
      | EmptyString => if isWhiteSpace c then EmptyString else String c EmptyString
      | r => String c r
      end
  end.

(** [String.prototype.trim]. *)
Definition trim (s : string) : string := trimEnd (trimStart s).

(** A number in a template literal: its decimal digits. *)
Definition showNat (n : nat) : string :=
  NilEmpty.string_of_uint (Nat.to_uint n).

(** [uniq(S.Eq)] of fp-ts: keeps the first occurrence of every element, in
    order.  [out] is the array built so far. *)
Fixpoint uniqLoop (out rest : list string) : list string :=
  match rest with
  | [] => out
  | a :: rest' =>
      if forallb (fun o => negb (String.eqb o a)) out
      then uniqLoop (push out a) rest'
      else uniqLoop out rest'
  end.

Definition uniq (l : list string) : list string :=
  match l with
  | [] => []
  | a :: rest => uniqLoop [a] rest
  end.

End JS.

(** ** Ordered dictionaries *)

Module Dict.
Section Dict.

Context {V : Type}.

Definition t := list (string * V).

(** [obj[key]]. *)
Fixpoint get (key : string) (d : t) : option V :=
  match d with
  | [] => None
  | (k, v) :: d' => if String.eqb k key then Some v else get key d'
  end.

(** [delete obj[key]]. *)
Definition delete (key : string) (d : t) : t :=
  filter (fun kv => negb (String.eqb (fst kv) key)) d.

(** [obj[key] = v]: an existing key keeps its place, a new one goes last. *)
Fixpoint set (key : string) (v : V) (d : t) : t :=
  match d with
  | [] => [(key, v)]
  | (k, w) :: d' =>
      if String.eqb k key then (k, v) :: d' else (k, w) :: set key v d'
  end.

End Dict.
Arguments t : clear implicits.
End Dict.

(** ** The intermediate representation *)

(** [Binding] of [types/mitosis-node]. *)
Record Binding : Type := mkBinding {
  code : string;
  arguments : option (list string);
  type : option string
}.

(** [scope] of a node: the names a [For] introduces. *)
Record Scope : Type := mkScope {
  forName : option string;
  indexName : option string
}.

(** [MitosisNode].  Of [meta] only the [else] entry is read here. *)
Inductive MitosisNode : Type := mkNode {
  name : string;
  properties : Dict.t string;
  bindings : Dict.t Binding;
  children : list MitosisNode;
  meta_else : option MitosisNode;
  scope : Scope
}.

Inductive StylesType : Type :=
| styled_components
| style_tag.

Definition StylesType_eqb (a b : StylesType) : bool :=
  match a, b with
  | styled_components, styled_components => true
  | style_tag, style_tag => true
  | _, _ => false
  end.

(** ** Class composition *)

Definition withProperties (json : MitosisNode) (p : Dict.t string) : MitosisNode :=
  mkNode (name json) p (bindings json) (children json) (meta_else json) (scope json).

Definition withBindings (json : MitosisNode) (b : Dict.t Binding) : MitosisNode :=
  mkNode (name json) (properties json) b (children json) (meta_else json) (scope json).

(** [json.properties[key]] when it is truthy. *)
Definition truthyProperty (key : string) (json : MitosisNode) : option string :=
  match Dict.get key (properties json) with
  | Some v => if JS.truthy v then Some v else None
  | None => None
  end.

(** The two arrays [collectClassString] fills, and the node as it leaves it:
    every source that is read is deleted, and so is the [css] binding.  The
    [code] of a binding is a string, so [typeof ...code === 'string'] holds
    of every binding there is. *)
Definition collectClasses (json : MitosisNode) (stylesType : StylesType)
  : list string * list string * MitosisNode :=
  let staticClasses : list string := [] in
  let '(staticClasses, json) :=
    match truthyProperty "class" json with
    | Some v =>
        (JS.push staticClasses v, withProperties json (Dict.delete "class" (properties json)))
    | None => (staticClasses, json)
    end in
  let '(staticClasses, json) :=
    match truthyProperty "className" json with
    | Some v =>
        (JS.push staticClasses v,
         withProperties json (Dict.delete "className" (properties json)))
    | None => (staticClasses, json)
    end in
  let dynamicClasses : list string := [] in
  let '(dynamicClasses, json) :=
    match Dict.get "class" (bindings json) with
    | Some b =>
        (JS.push dynamicClasses (code b), withBindings json (Dict.delete "class" (bindings json)))
    | None => (dynamicClasses, json)
    end in
  let '(dynamicClasses, json) :=
    match Dict.get "className" (bindings json) with
    | Some b =>
        (JS.push dynamicClasses (code b),
         withBindings json (Dict.delete "className" (bindings json)))
    | None => (dynamicClasses, json)
    end in
  let dynamicClasses :=
    match Dict.get "css" (bindings json) with
    | Some b =>
        if (4 <? String.length (JS.trim (code b)))%nat
           && StylesType_eqb stylesType styled_components
        then JS.push dynamicClasses ("css(" ++ code b ++ ")")
        else dynamicClasses
    | None => dynamicClasses
    end in
  let json := withBindings json (Dict.delete "css" (bindings json)) in
  (staticClasses, dynamicClasses, json).

(** [collectClassString]: the attribute value, or [None] for [null], and the
    mutated node. *)
Definition collectClassString (json : MitosisNode) (stylesType : StylesType)
  : option string * MitosisNode :=
  let '(staticClasses, dynamicClasses, json) := collectClasses json stylesType in
  let staticClassesString := JS.join " " staticClasses in
  let dynamicClassesString := JS.join " + ' ' + " dynamicClasses in
  let hasStaticClasses := negb (length staticClasses =? 0)%nat in
  let hasDynamicClasses := negb (length dynamicClasses =? 0)%nat in
  if hasStaticClasses && negb hasDynamicClasses then
    (Some (JS.dq ++ staticClassesString ++ JS.dq), json)
  else if hasDynamicClasses && negb hasStaticClasses then
    (Some ("{" ++ dynamicClassesString ++ "}"), json)
  else if hasDynamicClasses && hasStaticClasses then
    (Some ("{" ++ JS.dq ++ staticClassesString ++ " " ++ JS.dq ++ " + "
           ++ dynamicClassesString ++ "}"), json)
  else
    (None, json).

(** ** Rendering a node *)

(** [ToSolidOptions], after [mergeOptions]; the [plugins] are held by the
    plugin runners below. *)
Record ToSolidOptions : Type := mkOptions {
  state : string;
  stylesType : StylesType;
  prettier : option bool
}.

Definition DEFAULT_OPTIONS : ToSolidOptions :=
  mkOptions "signals" styled_components None.

(** [json.bindings[key]?.code] when it is truthy. *)
Definition truthyBindingCode (key : string) (json : MitosisNode) : option string :=
  match Dict.get key (bindings json) with
  | Some b => if JS.truthy (code b) then Some (code b) else None
  | None => None
  end.

(** [a || b] on an optional string. *)
Definition orElse (a : option string) (b : string) : string :=
  match a with
  | Some s => if JS.truthy s then s else b
  | None => b
  end.

Section Render.

(** Helpers of other files of the package, taken as they are called here. *)

(** [checkIsForNode] of [types/mitosis-node]. *)
Variable checkIsForNode : MitosisNode -> bool.
(** [filterEmptyTextNodes] of [helpers/filter-empty-text-nodes]. *)
Variable filterEmptyTextNodes : MitosisNode -> bool.
(** [selfClosingTags.has] of [parsers/jsx]. *)
Variable selfClosingTags : string -> bool.
(** [babelTransformExpression] with the visitor that turns the keys of
    object literals to kebab-case. *)
Variable kebabCaseKeys : string -> string.

Variable options : ToSolidOptions.

(** The [class] attribute [blockToSolid] writes, and the node it goes on
    with. *)
Definition classToSolid (json : MitosisNode) : string * MitosisNode :=
  let '(classString, json) := collectClassString json (stylesType options) in
  match classString with
  | Some s => if JS.truthy s then (" class=" ++ s ++ " ", json) else (EmptyString, json)
  | None => (EmptyString, json)
  end.

(** One round of the loop over [json.properties]. *)
Definition propertyToSolid (key value : string) : string :=
  " " ++ key ++ "=" ++ JS.dq ++ value ++ JS.dq ++ " ".

(** One round of the loop over [json.bindings]; [tag] is [json.name]. *)
Definition bindingToSolid (tag key : string) (binding : Binding) : string :=
  let cusArg := match arguments binding with Some a => a | None => ["event"] end in
  if negb (JS.truthy (code binding)) then EmptyString
  else if match type binding with Some t => t =? "spread" | None => false end then
    " {...(" ++ code binding ++ ")} "
  else if JS.startsWith key "on" then
    let useKey :=
      if (key =? "onChange") && (tag =? "input") then "onInput" else key in
    " " ++ useKey ++ "={(" ++ JS.join "," cusArg ++ ") => " ++ code binding ++ "} "
  else
    let useValue := if key =? "style" then kebabCaseKeys (code binding) else code binding in
    " " ++ key ++ "={" ++ useValue ++ "} ".

Definition propertiesToSolid (str : string) (p : Dict.t string) : string :=
  fold_left (fun str kv => str ++ propertyToSolid (fst kv) (snd kv)) p str.

Definition bindingsToSolid (tag : string) (str : string) (b : Dict.t Binding) : string :=
  fold_left (fun str kv => str ++ bindingToSolid tag (fst kv) (snd kv)) b str.

(** The opening tag up to and without its [>]: everything [blockToSolid]
    writes for an element before it looks at [selfClosingTags].
    [fallback] is the rendering of [meta.else] of a [Show] that has one. *)
Definition openTagToSolid (json : MitosisNode) (fallback : option string) : string :=
  let str := EmptyString in
  let str := if name json =? "Fragment" then str ++ "<" else str ++ "<" ++ name json ++ " " in
  let str :=
    match fallback with
    | Some f => str ++ "fallback={" ++ f ++ "}"
    | None => str
    end in
  let '(classAttr, json) := classToSolid json in
  let str := str ++ classAttr in
  let str := propertiesToSolid str (properties json) in
  bindingsToSolid (name json) str (bindings json).

(** The [For] template of [blockToSolid]; [rendered] are the rendered
    children, an array that the template joins with commas. *)
Definition forToSolid (json : MitosisNode) (rendered : list string) : string :=
  let needsWrapper := negb (length (children json) =? 1)%nat in
  "<For each={" ++ JS.show (option_map code (Dict.get "each" (bindings json))) ++ "}>"
  ++ JS.nl ++ "    {(" ++ JS.show (forName (scope json)) ++ ", _index) => {"
  ++ JS.nl ++ "      const " ++ orElse (indexName (scope json)) "index" ++ " = _index();"
  ++ JS.nl ++ "      return " ++ (if needsWrapper then "<>" else EmptyString)
  ++ JS.join "," rendered ++ "}}"
  ++ JS.nl ++ "      " ++ (if needsWrapper then "</>" else EmptyString)
  ++ JS.nl ++ "    </For>".

(** [blockToSolid]. *)
Fixpoint blockToSolid (json : MitosisNode) : string :=
  let renderChildren :=
    fix renderChildren (l : list MitosisNode) : list string :=
      match l with
      | [] => []
      | item :: l' =>
          if filterEmptyTextNodes item
          then blockToSolid item :: renderChildren l'
          else renderChildren l'
      end in
  match truthyProperty "_text" json with
  | Some text => text
  | None =>
  match truthyBindingCode "_text" json with
  | Some c => "{" ++ c ++ "}"
  | None =>
  if checkIsForNode json then forToSolid json (renderChildren (children json))
  else
    let fallback :=
      if name json =? "Show" then
        match meta_else json with
        | Some e => Some (blockToSolid e)
        | None => None
        end
      else None in
    let str := openTagToSolid json fallback in
    if selfClosingTags (name json) then str ++ " />"
    else
      let str := str ++ ">" in
      let str := str ++ JS.join JS.nl (renderChildren (children json)) in
      if name json =? "Fragment" then str ++ "</>" else str ++ "</" ++ name json ++ ">"
  end
  end.

(** [children.filter(filterEmptyTextNodes).map(blockToSolid)]. *)
Definition childrenToSolid (l : list MitosisNode) : list string :=
  map blockToSolid (filter filterEmptyTextNodes l).

End Render.

(** ** The component *)

Module ContextGet.
Record t : Type := mk { name : string }.
End ContextGet.

Module ContextSet.
(** [value] is the JSON text of the state object, when there is one. *)
Record t : Type := mk { name : string; value : option string }.
End ContextSet.

Module Hook.
(** An [onUpdate] entry; [onMount] has no [deps]. *)
Record t : Type := mk { code : string; deps : option string }.
End Hook.

Module Component.
(** [MitosisComponent]: the fields this file reads, the [subComponents],
    which hold nodes too, and in [rest] the JSON text of the others, which
    hold no node and which only helpers of other files read. *)
Inductive t : Type := mk {
  name : string;
  children : list MitosisNode;
  context_get : Dict.t ContextGet.t;
  context_set : Dict.t ContextSet.t;
  hooks_onMount : option Hook.t;
  hooks_onUpdate : option (list Hook.t);
  subComponents : list t;
  rest : string
}.

Definition withChildren (json : t) (c : list MitosisNode) : t :=
  mk (name json) c (context_get json) (context_set json)
     (hooks_onMount json) (hooks_onUpdate json) (subComponents json) (rest json).

(** The component with [hooks.onMount] set. *)
Definition withOnMount (json : t) (h : Hook.t) : t :=
  mk (name json) (children json) (context_get json) (context_set json)
     (Some h) (hooks_onUpdate json) (subComponents json) (rest json).
End Component.

(** *** Dynamic components *)

(** What the callback of [processDynamicComponents] does to one node. *)
Definition markDynamic (node : MitosisNode) : MitosisNode :=
  mkNode "Dynamic" (properties node)
         (Dict.set "component" (mkBinding (name node) None None) (bindings node))
         (children node) (meta_else node) (scope node).

(** The walk of [traverse] below a node, with the flag [found] threaded
    through: the callback runs on the node, then the walk goes down into
    [children] and [meta.else], which the callback leaves as they are. *)
Fixpoint processDynamicNode (found : bool) (node : MitosisNode) : bool * MitosisNode :=
  let hit := JS.includes (name node) "." in
  let visited := if hit then markDynamic node else node in
  let found := if hit then true else found in
  let '(found, children') :=
    (fix walk (found : bool) (l : list MitosisNode) : bool * list MitosisNode :=
       match l with
       | [] => (found, [])
       | c :: l' =>
           let '(found, c') := processDynamicNode found c in
           let '(found, l'') := walk found l' in
           (found, c' :: l'')
       end) found (children node) in
  let '(found, else') :=
    match meta_else node with
    | Some e => let '(found, e') := processDynamicNode found e in (found, Some e')
    | None => (found, None)
    end in
  (found,
   mkNode (name visited) (properties visited) (bindings visited) children' else'
          (scope visited)).

Fixpoint processDynamicNodes (found : bool) (l : list MitosisNode)
  : bool * list MitosisNode :=
  match l with
  | [] => (found, [])
  | c :: l' =>
      let '(found, c') := processDynamicNode found c in
      let '(found, l'') := processDynamicNodes found l' in
      (found, c' :: l'')
  end.

(** The walk of [traverse] over a component, with the flag [found]
    threaded through: it meets the nodes below [children], and those of the
    [subComponents]. *)
Fixpoint processDynamicComponent (found : bool) (json : Component.t)
  : bool * Component.t :=
  let '(found, children') := processDynamicNodes found (Component.children json) in
  let '(found, subComponents') :=
    (fix walk (found : bool) (l : list Component.t) : bool * list Component.t :=
       match l with
       | [] => (found, [])
       | c :: l' =>
           let '(found, c') := processDynamicComponent found c in
           let '(found, l'') := walk found l' in
           (found, c' :: l'')
       end) found (Component.subComponents json) in
  (found,
   Component.mk (Component.name json) children' (Component.context_get json)
                (Component.context_set json) (Component.hooks_onMount json)
                (Component.hooks_onUpdate json) subComponents' (Component.rest json)).

(** [processDynamicComponents]: the flag it returns and the component as it
    leaves it. *)
Definition processDynamicComponents (json : Component.t) : bool * Component.t :=
  let found := false in
  processDynamicComponent found json.

(** *** Pieces of the module text *)

Module State.
(** What [getState] of [./state] returns. *)
Record t : Type := mk {
  str : string;
  import_store : option (list string);
  import_solidjs : option (list string)
}.
End State.

(** [a ?? []]. *)
Definition orEmpty (a : option (list string)) : list string :=
  match a with
  | Some l => l
  | None => []
  end.

(** [.filter(checkIsDefined)]. *)
Fixpoint checkIsDefined (l : list (option string)) : list string :=
  match l with
  | [] => []
  | Some a :: l' => a :: checkIsDefined l'
  | None :: l' => checkIsDefined l'
  end.

(** [array.map((x, index) => f(x, index))], from [index] on. *)
Fixpoint mapi {A B : Type} (f : A -> nat -> B) (index : nat) (l : list A) : list B :=
  match l with
  | [] => []
  | x :: l' => f x index :: mapi f (S index) l'
  end.

(** [hooks.onMount?.code], when it is truthy. *)
Definition onMountCode (json : Component.t) : option string :=
  match Component.hooks_onMount json with
  | Some h => if JS.truthy (Hook.code h) then Some (Hook.code h) else None
  | None => None
  end.

(** [hooks.onUpdate?.length], as a condition. *)
Definition hasOnUpdate (json : Component.t) : bool :=
  match Component.hooks_onUpdate json with
  | Some (_ :: _) => true
  | _ => false
  end.

(** [state?.import.solidjs ?? []]. *)
Definition stateImports (state : option State.t) : list string :=
  orEmpty (match state with Some s => State.import_solidjs s | None => None end).

(** The array [componentToSolid] passes to [uniq]. *)
Definition importCandidates (json : Component.t)
    (componentHasContext hasShowComponent hasForComponent : bool)
    (state : option State.t) : list string :=
  checkIsDefined
    ([ if componentHasContext then Some "useContext" else None;
       if hasShowComponent then Some "Show" else None;
       if hasForComponent then Some "For" else None;
       match onMountCode json with Some _ => Some "onMount" | None => None end ]
     ++ map Some (if hasOnUpdate json then ["on"; "createEffect"] else [])
     ++ map Some (stateImports state))%list.

(** The [solidJSImports] of [componentToSolid]. *)
Definition solidJSImports (json : Component.t)
    (componentHasContext hasShowComponent hasForComponent : bool)
    (state : option State.t) : list string :=
  JS.uniq
    (importCandidates json componentHasContext hasShowComponent hasForComponent state).

Definition storeImports (state : option State.t) : list string :=
  orEmpty (match state with Some s => State.import_store s | None => None end).

Definition solidJSImportLine (imports : list string) : string :=
  match imports with
  | [] => EmptyString
  | _ :: _ => "import { " ++ JS.join ", " imports ++ " } from 'solid-js';"
  end.

Definition dynamicImportLine (foundDynamicComponents : bool) : string :=
  if negb foundDynamicComponents then EmptyString
  else "import { Dynamic } from 'solid-js/web';".

Definition storeImportLine (imports : list string) : string :=
  match imports with
  | [] => EmptyString
  | _ :: _ => "import { " ++ JS.join ", " imports ++ " } from 'solid-js/store';"
  end.

Definition cssImportLine (componentHasStyles : bool) (options : ToSolidOptions) : string :=
  if negb componentHasStyles && StylesType_eqb (stylesType options) styled_components
  then EmptyString
  else "import { css } from " ++ JS.dq ++ "solid-styled-components" ++ JS.dq ++ ";".

(** [getContextString]. *)
Definition getContextString (component : Component.t) : string :=
  fold_left
    (fun str kv =>
       str ++ JS.nl ++ "      const " ++ fst kv ++ " = useContext("
           ++ ContextGet.name (snd kv) ++ ");" ++ JS.nl ++ "    ")
    (Component.context_get component) EmptyString.

Definition onMountToSolid (json : Component.t) : string :=
  match onMountCode json with
  | None => EmptyString
  | Some c => "onMount(() => { " ++ c ++ " })"
  end.

(** The callback mapped over [hooks.onUpdate]. *)
Definition onUpdateHookToSolid (hook : Hook.t) (index : nat) : string :=
  match Hook.deps hook with
  | Some d =>
      if JS.truthy d then
        let hookName := "onUpdateFn_" ++ JS.showNat index in
        JS.nl ++ "                    function " ++ hookName ++ "() { " ++ Hook.code hook ++ " };"
        ++ JS.nl ++ "                    createEffect(on(() => " ++ d ++ ", " ++ hookName ++ "));"
        ++ JS.nl ++ "                  "
      else EmptyString
  | None => EmptyString
  end.

Definition onUpdateToSolid (json : Component.t) : string :=
  match Component.hooks_onUpdate json with
  | Some hooks => JS.join JS.nl (mapi onUpdateHookToSolid 0 hooks)
  | None => EmptyString
  end.

(** [css] is [None] for [false]. *)
Definition styleTagToSolid (options : ToSolidOptions) (css : option string) : string :=
  match css with
  | Some c =>
      if StylesType_eqb (stylesType options) style_tag && JS.truthy c
         && (4 <? String.length (JS.trim c))%nat
      then "<style jsx>{`" ++ c ++ "`}</style>"
      else EmptyString
  | None => EmptyString
  end.

(** The literal parts of the template of [componentToSolid], in order. *)
Definition templateStrings : list string :=
  [ JS.nl ++ "    ";
    JS.nl ++ "    ";
    JS.nl ++ "    ";
    JS.nl ++ "    ";
    JS.nl ++ "    ";
    JS.nl ++ JS.nl ++ "    function ";
    "(props) {" ++ JS.nl ++ "      ";
    JS.nl ++ "      " ++ JS.nl ++ "      ";
    JS.nl ++ "      ";
    JS.nl ++ JS.nl ++ "      ";
    JS.nl ++ "      ";
    JS.nl ++ JS.nl ++ "      return (";
    JS.nl ++ "        ";
    JS.nl ++ "        ";
    JS.nl ++ "        ";
    ")" ++ JS.nl ++ "    }" ++ JS.nl ++ JS.nl ++ "    export default ";
    ";" ++ JS.nl ++ "  " ].

(** *** The generator *)

(** A step that may throw: [None] stands for the exception. *)
Notation "x <- c1 ;; c2" :=
  (match c1 with Some x => c2 | None => None end)
  (at level 61, c1 at next level, right associativity).

Section Generator.

Variable checkIsForNode : MitosisNode -> bool.
Variable filterEmptyTextNodes : MitosisNode -> bool.
Variable selfClosingTags : string -> bool.
Variable kebabCaseKeys : string -> string.

(** Helpers of other files of the package, taken as they are called here. *)

(** The four stages of [modules/plugins], run with [options.plugins] and
    the code processor plugin. *)
Variable runPreJsonPlugins : ToSolidOptions -> Component.t -> option Component.t.
Variable runPostJsonPlugins : ToSolidOptions -> Component.t -> option Component.t.
Variable runPreCodePlugins : ToSolidOptions -> string -> option string.
Variable runPostCodePlugins : ToSolidOptions -> string -> option string.
(** The node [createMitosisNode] starts from. *)
Variable emptyNode : MitosisNode.
(** [stringifyContextValue] of [helpers/get-state-object-string]. *)
Variable stringifyContextValue : string -> string.
(** [hasCss] of [helpers/styles/helpers]. *)
Variable hasCss : Component.t -> bool.
(** [stripMetaProperties], with the component as it leaves it. *)
Variable stripMetaProperties : Component.t -> Component.t.
(** [collectCss] with the prefix [hash(json)]: the style sheet, and the
    component as it leaves it. *)
Variable collectCss : Component.t -> string * Component.t.
(** [getState] of [./state]. *)
Variable getState : Component.t -> ToSolidOptions -> option State.t.
(** [getComponentsUsed]: the members of the set it returns. *)
Variable getComponentsUsed : Component.t -> list string.
(** [hasContext] of [generators/helpers/context]. *)
Variable hasContext : Component.t -> bool.
(** [renderPreComponent] for the target [solid]. *)
Variable renderPreComponent : Component.t -> string.
(** [getRefs]: the members of the set it returns, in order. *)
Variable getRefs : Component.t -> list string.
(** The template tag [dedent], given the literal parts and the values. *)
Variable dedent : list string -> list string -> string.
(** [format] of prettier with the typescript parser. *)
Variable format : string -> option string.

(** [createMitosisNode], as [addProviderComponents] calls it: the fields
    given replace those of the node it starts from. *)
Definition createMitosisNode (nodeName : string) (nodeChildren : list MitosisNode)
    (nodeBindings : option (Dict.t Binding)) : MitosisNode :=
  mkNode nodeName (properties emptyNode)
         (match nodeBindings with Some b => b | None => bindings emptyNode end)
         nodeChildren (meta_else emptyNode) (scope emptyNode).

(** One round of the loop of [addProviderComponents]. *)
Definition addProviderComponent (json : Component.t) (entry : ContextSet.t)
  : Component.t :=
  Component.withChildren json
    [ createMitosisNode
        (ContextSet.name entry ++ ".Provider")
        (Component.children json)
        (match ContextSet.value entry with
         | Some value =>
             Some [("value", mkBinding (stringifyContextValue value) None None)]
         | None => None
         end) ].

(** [addProviderComponents]: the component as it leaves it. *)
Definition addProviderComponents (json : Component.t) : Component.t :=
  fold_left (fun json kv => addProviderComponent json (snd kv))
            (Component.context_set json) json.

Definition getRefsString (json : Component.t) : string :=
  JS.join JS.nl (map (fun ref => "let " ++ ref ++ ";") (getRefs json)).

Definition has (x : string) (set : list string) : bool :=
  existsb (fun y => y =? x) set.

(** The values of the template of [componentToSolid], in order. *)
Definition templateValues (options : ToSolidOptions) (json : Component.t)
    (componentHasStyles addWrapper foundDynamicComponents : bool)
    (css : option string) (state : option State.t) : list string :=
  let componentsUsed := getComponentsUsed json in
  let componentHasContext := hasContext json in
  let hasShowComponent := has "Show" componentsUsed in
  let hasForComponent := has "For" componentsUsed in
  let imports :=
    solidJSImports json componentHasContext hasShowComponent hasForComponent state in
  [ solidJSImportLine imports;
    dynamicImportLine foundDynamicComponents;
    storeImportLine (storeImports state);
    cssImportLine componentHasStyles options;
    renderPreComponent json;
    Component.name json;
    match state with Some s => State.str s | None => EmptyString end;
    getRefsString json;
    getContextString json;
    onMountToSolid json;
    onUpdateToSolid json;
    if addWrapper then "<>" else EmptyString;
    JS.join JS.nl
      (childrenToSolid checkIsForNode filterEmptyTextNodes selfClosingTags
                       kebabCaseKeys options (Component.children json));
    styleTagToSolid options css;
    if addWrapper then "</>" else EmptyString;
    Component.name json ].

(** The structural preprocessing of [componentToSolid]: from the clone of
    the component to the component that is rendered, with the flags found
    on the way. *)
Definition preprocess (options : ToSolidOptions) (component : Component.t)
  : option (bool * bool * bool * Component.t) :=
  let json := component in
  json <- runPreJsonPlugins options json ;;
  let json := addProviderComponents json in
  let componentHasStyles := hasCss json in
  let addWrapper :=
    negb (length (filter filterEmptyTextNodes (Component.children json)) =? 1)%nat
    || StylesType_eqb (stylesType options) style_tag in
  json <- runPostJsonPlugins options json ;;
  let json := stripMetaProperties json in
  let '(foundDynamicComponents, json) := processDynamicComponents json in
  Some (componentHasStyles, addWrapper, foundDynamicComponents, json).

(** [componentToSolid(options)({ component })], [options] being the merged
    options. *)
Definition componentToSolid (options : ToSolidOptions) (component : Component.t)
  : option string :=
  r <- preprocess options component ;;
  let '(componentHasStyles, addWrapper, foundDynamicComponents, json) := r in
  let '(css, json) :=
    if StylesType_eqb (stylesType options) style_tag
    then let '(css, json) := collectCss json in (Some css, json)
    else (None, json) in
  let state := getState json options in
  let str :=
    dedent templateStrings
           (templateValues options json componentHasStyles addWrapper
                           foundDynamicComponents css state) in
  str <- runPreCodePlugins options str ;;
  str <- (match prettier options with
          | Some false => Some str
          | _ => format str
          end) ;;
  runPostCodePlugins options str.

End Generator.

(** *** The stages of [componentToSolid] after the preprocessing *)

Section Assembly.

Variable checkIsForNode : MitosisNode -> bool.
Variable filterEmptyTextNodes : MitosisNode -> bool.
Variable selfClosingTags : string -> bool.
Variable kebabCaseKeys : string -> string.
Variable runPreCodePlugins : ToSolidOptions -> string -> option string.
Variable runPostCodePlugins : ToSolidOptions -> string -> option string.
Variable collectCss : Component.t -> string * Component.t.
Variable getState : Component.t -> ToSolidOptions -> option State.t.
Variable getComponentsUsed : Component.t -> list string.
Variable hasContext : Component.t -> bool.
Variable renderPreComponent : Component.t -> string.
Variable getRefs : Component.t -> list string.
Variable format : string -> option string.

(** The style sheet and the component that is rendered: [collectCss] runs
    in the [style-tag] mode only. *)
Definition cssStage (options : ToSolidOptions) (json : Component.t)
  : option string * Component.t :=
  if StylesType_eqb (stylesType options) style_tag
  then let '(css, json) := collectCss json in (Some css, json)
  else (None, json).

(** The values [componentToSolid] puts in its template, from what the
    preprocessing gives. *)
Definition assembledValues (options : ToSolidOptions)
    (r : bool * bool * bool * Component.t) : list string :=
  let '(componentHasStyles, addWrapper, foundDynamicComponents, json) := r in
  let '(css, json) := cssStage options json in
  templateValues checkIsForNode filterEmptyTextNodes selfClosingTags kebabCaseKeys
                 getComponentsUsed hasContext renderPreComponent getRefs
                 options json componentHasStyles addWrapper foundDynamicComponents css
                 (getState json options).

(** What [componentToSolid] does with the text of the template: the
    plugins of the third stage, the formatter unless [prettier] is [false],
    the plugins of the fourth stage. *)
Definition finishCode (options : ToSolidOptions) (str : string) : option string :=
  str <- runPreCodePlugins options str ;;
  str <- (match prettier options with
          | Some false => Some str
          | _ => format str
          end) ;;
  runPostCodePlugins options str.

End Assembly.

(** *** The dynamic-component pass without the flag

    The tree the walk leaves and the flag it raises, each on its own. *)

(** The node as the walk leaves it. *)
Fixpoint rewriteDynamic (node : MitosisNode) : MitosisNode :=
  let visited := if JS.includes (name node) "." then markDynamic node else node in
  mkNode (name visited) (properties visited) (bindings visited)
         (map rewriteDynamic (children node))
         (match meta_else node with
          | Some e => Some (rewriteDynamic e)
          | None => None
          end)
         (scope visited).

(** Whether the walk meets a name with a dot at or below the node. *)
Fixpoint hasDynamic (node : MitosisNode) : bool :=
  JS.includes (name node) "."
  || existsb hasDynamic (children node)
  || match meta_else node with
     | Some e => hasDynamic e
     | None => false
     end.

(** The component as the walk leaves it. *)
Fixpoint rewriteDynamicComponent (json : Component.t) : Component.t :=
  Component.mk (Component.name json)
               (map rewriteDynamic (Component.children json))
               (Component.context_get json) (Component.context_set json)
               (Component.hooks_onMount json) (Component.hooks_onUpdate json)
               (map rewriteDynamicComponent (Component.subComponents json))
               (Component.rest json).

(** Whether the walk meets a name with a dot in the component. *)
Fixpoint hasDynamicComponent (json : Component.t) : bool :=
  existsb hasDynamic (Component.children json)
  || existsb hasDynamicComponent (Component.subComponents json).

(** ** Reading the tree by position *)

(** A step down from a node: into its [i]-th child or into [meta.else]. *)
Inductive Step : Type :=
| child (i : nat)
| alternate.

(** The node reached from [node] along [path], if there is one. *)
Fixpoint nodeAt (path : list Step) (node : MitosisNode) : option MitosisNode :=
  match path with
  | [] => Some node
  | child i :: path' =>
      match nth_error (children node) i with
      | Some c => nodeAt path' c
      | None => None
      end
  | alternate :: path' =>
      match meta_else node with
      | Some e => nodeAt path' e
      | None => None
      end
  end.

(** The node reached from the [i]-th root child of a component. *)
Definition componentNodeAt (i : nat) (path : list Step) (json : Component.t)
  : option MitosisNode :=
  match nth_error (Component.children json) i with
  | Some c => nodeAt path c
  | None => None
  end.

(** The component reached from [json] by going down into the sub-component
    at each of the places of [subs] in turn. *)
Fixpoint subComponentAt (subs : list nat) (json : Component.t) : option Component.t :=
  match subs with
  | [] => Some json
  | k :: subs' =>
      match nth_error (Component.subComponents json) k with
      | Some c => subComponentAt subs' c
      | None => None
      end
  end.

(** A node anywhere in the component: in the sub-component at [subs], from
    its [i]-th root child along [path]. *)
Definition anyNodeAt (subs : list nat) (i : nat) (path : list Step) (json : Component.t)
  : option MitosisNode :=
  match subComponentAt subs json with
  | Some c => componentNodeAt i path c
  | None => None
  end.

(** The keys class composition reads from [bindings]. *)
Definition classBindingKey (key : string) : bool :=
  (key =? "class") || (key =? "className") || (key =? "css").

(** [providers P names l]: [l] is one node that satisfies [P] for the first
    of [names] and whose children are again such a chain for the others. *)
Fixpoint providers (P : string -> MitosisNode -> Prop) (names : list string)
    (l : list MitosisNode) : Prop :=
  match names with
  | [] => True
  | n :: names' =>
      exists node, l = [node] /\ P n node /\ providers P names' (children node)
  end.

(** A provider as [addProviderComponents] makes it. *)
Definition isProvider (contextName : string) (node : MitosisNode) : Prop :=
  name node = contextName ++ ".Provider".

(** A provider as [processDynamicComponents] leaves it. *)
Definition isDynamicProvider (contextName : string) (node : MitosisNode) : Prop :=
  name node = "Dynamic" /\
  Dict.get "component" (bindings node)
  = Some (mkBinding (contextName ++ ".Provider") None None).

(** The names of the contexts a component sets, the last one first. *)
Definition contextNames (json : Component.t) : list string :=
  rev (map (fun kv => ContextSet.name (snd kv)) (Component.context_set json)).

(** ** Stand-ins for the helpers of other files

    Concrete helpers, for running the generator on examples. *)

Module Reference.

Definition checkIsForNode (node : MitosisNode) : bool := name node =? "For".

Definition filterEmptyTextNodes (node : MitosisNode) : bool :=
  negb (match Dict.get "_text" (properties node) with
        | Some t => (String.length (JS.trim t) =? 0)%nat
        | None => false
        end).

Definition selfClosingTags (tag : string) : bool :=
  existsb (fun t => t =? tag)
          ["area"; "base"; "br"; "col"; "embed"; "hr"; "img"; "input"; "link";
           "meta"; "param"; "source"; "track"; "wbr"].

Definition emptyNode : MitosisNode :=
  mkNode "div" [] [] [] None (mkScope None None).

(** No plugin: a stage gives back what it is given. *)
Definition noPlugins {A : Type} (_ : ToSolidOptions) (x : A) : option A := Some x.

End Reference.

(** ** The sources of class composition, read off the node *)

(** The static sources: the truthy [class] and [className] properties. *)
Definition staticSources (json : MitosisNode) : list string :=
  checkIsDefined [truthyProperty "class" json; truthyProperty "className" json].

(** The call of the [css] helper, when the [css] binding contributes one. *)
Definition cssHelperCall (st : StylesType) (json : MitosisNode) : option string :=
  match Dict.get "css" (bindings json) with
  | Some b =>
      if (4 <? String.length (JS.trim (code b)))%nat && StylesType_eqb st styled_components
      then Some ("css(" ++ code b ++ ")")
      else None
  | None => None
  end.

(** The codes of the [class] and [className] bindings. *)
Definition classBindingCodes (json : MitosisNode) : list string :=
  checkIsDefined [option_map code (Dict.get "class" (bindings json));
                  option_map code (Dict.get "className" (bindings json))].

(** The dynamic sources: those codes, then the helper call. *)
Definition dynamicSources (st : StylesType) (json : MitosisNode) : list string :=
  (classBindingCodes json ++ checkIsDefined [cssHelperCall st json])%list.

(** The bindings class composition leaves: those it does not read. *)
Definition keptBindings (b : Dict.t Binding) : Dict.t Binding :=
  filter (fun kv => negb (classBindingKey (fst kv))) b.

(** ** Example nodes and components *)

Module Ex.

Definition node (tag : string) (p : Dict.t string) (b : Dict.t Binding)
    (c : list MitosisNode) : MitosisNode :=
  mkNode tag p b c None (mkScope None None).

Definition bind (c : string) : Binding := mkBinding c None None.

(** [<div css={{}} />]: a [css] binding whose code is two characters. *)
Definition shortCss : MitosisNode :=
  node "div" [] [("css", bind "{}")] [].

(** [<div css={{ color: 'red' }} onClick={go()} />]. *)
Definition longCss : MitosisNode :=
  node "div" [] [("css", bind "{ color: 'red' }"); ("onClick", bind "go()")] [].

(** [<div class="" />]: a [class] property that is the empty string. *)
Definition emptyClass : MitosisNode :=
  node "div" [("class", EmptyString)] [] [].

(** [<div {...onSpread} />], as the JSX parser keys a spread. *)
Definition spreadOn : MitosisNode :=
  node "div" [] [("onSpread", mkBinding "onSpread" None (Some "spread"))] [].

(** A [div] whose [onClick] binding has no code. *)
Definition emptyHandler : MitosisNode :=
  node "div" [] [("onClick", bind EmptyString)] [].

(** [<input onChange={update(e)} />] with the argument [e] declared, and
    a [button] with an [onClick] without arguments. *)
Definition inputChange : MitosisNode :=
  node "input" [] [("onChange", mkBinding "update(e)" (Some ["e"]) None)] [].

(** [<For each={items}>] with the item name [item] and no child. *)
Definition emptyFor : MitosisNode :=
  mkNode "For" [] [("each", bind "items")] [] None (mkScope (Some "item") None).

(** The same with one child, [<li />]. *)
Definition oneChildFor : MitosisNode :=
  mkNode "For" [] [("each", bind "items")] [node "li" [] [] []] None
         (mkScope (Some "item") None).

(** A component without children, context or hooks. *)
Definition bare : Component.t :=
  Component.mk "MyComponent" [] [] [] None None [] "{}".

(** The same with two [onUpdate] hooks, none with [deps]. *)
Definition withoutDeps : Component.t :=
  Component.mk "MyComponent" [] [] []
               None (Some [Hook.mk "log()" None; Hook.mk "tick()" None]) [] "{}".

(** The same with three [onUpdate] hooks, the second without [deps]. *)
Definition mixedDeps : Component.t :=
  Component.mk "MyComponent" [] [] [] None
               (Some [Hook.mk "a()" (Some "[x]"); Hook.mk "b()" None;
                      Hook.mk "c()" (Some "[y, z]")]) [] "{}".

(** A component whose root is [<section>] with the child
    [<foo.bar key="value" />]. *)
Definition dotted : Component.t :=
  Component.mk "MyComponent"
               [node "section" [] [] [node "foo.bar" [("key", "value")] [] []]]
               [] [] None None [] "{}".

(** A component that sets the context [ThemeContext] around a [div]. *)
Definition themed : Component.t :=
  Component.mk "MyComponent" [node "div" [] [] []] []
               [("theme", ContextSet.mk "ThemeContext" (Some "{ dark: true }"))]
               None None [] "{}".

(** The rendering with the helpers of the package. *)
Definition render (json : MitosisNode) : string :=
  blockToSolid Reference.checkIsForNode Reference.filterEmptyTextNodes
               Reference.selfClosingTags (fun c => c) DEFAULT_OPTIONS json.

End Ex.

(** The elements of a list in the order of their first occurrence, each
    once: the order-stable deduplication. *)
Fixpoint firstOccurrences (l : list string) : list string :=
  match l with
  | [] => []
  | a :: l' => a :: filter (fun x => negb (x =? a)) (firstOccurrences l')
  end.

(** [emits out part]: the text [part] is written in [out]. *)
Definition emits (out part : string) : Prop :=
  exists before after, out = before ++ part ++ after.

(** ** [preProcessBlockCode] *)

Section PreProcess.

(** [updateStateCode({ options, component, updateSetters })] of
    [./state/helpers]: the rewriting of a piece of code. *)
Variable updateStateCode : ToSolidOptions -> Component.t -> bool -> string -> string.

Variable options : ToSolidOptions.
Variable component : Component.t.

(** One round of the loop over the keys of [json.properties]. *)
Definition preProcessProperty (p : Dict.t string) (key : string) : Dict.t string :=
  match Dict.get key p with
  | Some value =>
      if JS.truthy value
      then Dict.set key (updateStateCode options component false value) p
      else p
  | None => p
  end.

(** One round of the loop over the keys of [json.bindings]. *)
Definition preProcessBinding (b : Dict.t Binding) (key : string) : Dict.t Binding :=
  match Dict.get key b with
  | Some value =>
      if JS.truthy (code value)
      then Dict.set key
             (mkBinding (updateStateCode options component true (code value))
                        (arguments value) (type value))
             b
      else b
  | None => b
  end.

(** [preProcessBlockCode]: the node as it leaves it.  Each loop runs over
    the keys the object has when the loop starts. *)
Definition preProcessBlockCode (json : MitosisNode) : MitosisNode :=
  let p := fold_left preProcessProperty (map fst (properties json)) (properties json) in
  let b := fold_left preProcessBinding (map fst (bindings json)) (bindings json) in
  mkNode (name json) p b (children json) (meta_else json) (scope json).

End PreProcess.

(** ** Notions for the further properties *)

(** The children found [n] levels down, when each level on the way is one
    node. *)
Fixpoint unwrap (n : nat) (l : list MitosisNode) : option (list MitosisNode) :=
  match n with
  | 0 => Some l
  | S n' =>
      match l with
      | [node] => unwrap n' (children node)
      | _ => None
      end
  end.

(** Whether class composition reads, and deletes, the property under
    [key]: a [class] or [className] that is not empty. *)
Definition staticClassKey (json : MitosisNode) (key : string) : bool :=
  ((key =? "class") || (key =? "className"))
  && match truthyProperty key json with Some _ => true | None => false end.

(** The properties class composition leaves. *)
Definition keptProperties (json : MitosisNode) : Dict.t string :=
  filter (fun kv => negb (staticClassKey json (fst kv))) (properties json).

(** Whether a node at or below [node] has a binding under the key
    [style]. *)
Fixpoint hasStyleBinding (node : MitosisNode) : bool :=
  existsb (fun kv => fst kv =? "style") (bindings node)
  || existsb hasStyleBinding (children node)
  || match meta_else node with
     | Some e => hasStyleBinding e
     | None => false
     end.

(** The keys of a dictionary, in order. *)
Definition keys {V : Type} (d : Dict.t V) : list string := map fst d.

(** What [preProcessBlockCode] makes of a property value and of a binding,
    given the rewriting [f] of a piece of code. *)
Definition rewriteValue (f : string -> string) (value : string) : string :=
  if JS.truthy value then f value else value.

Definition rewriteBinding (f : string -> string) (b : Binding) : Binding :=
  if JS.truthy (code b) then mkBinding (f (code b)) (arguments b) (type b) else b.

(** Whether every character is a decimal digit. *)
Fixpoint allDigits (s : string) : bool :=
  match s with
  | EmptyString => true
  | String c s' =>
      ((48 <=? nat_of_ascii c) && (nat_of_ascii c <=? 57))%nat && allDigits s'
  end.

(** Further examples. *)
Module Ex2.

(** Stand-ins for the helpers that [componentToSolid] calls. *)
Definition noState (_ : Component.t) (_ : ToSolidOptions) : option State.t := None.
Definition noCss (json : Component.t) : string * Component.t := (EmptyString, json).
Definition rootNames (json : Component.t) : list string :=
  map name (Component.children json).
Definition noText (_ : Component.t) : string := EmptyString.
Definition noRefs (_ : Component.t) : list string := [].

(** The template filled in, without the work of [dedent] on the
    indentation. *)
Fixpoint fill (strings values : list string) : string :=
  match strings, values with
  | s :: strings', v :: values' => s ++ v ++ fill strings' values'
  | s :: _, [] => s
  | [], _ => EmptyString
  end.

(** The generator with these stand-ins and the plugins of the second stage
    given. *)
Definition generate
    (runPostJsonPlugins : ToSolidOptions -> Component.t -> option Component.t)
    (options : ToSolidOptions) (component : Component.t) : option string :=
  componentToSolid Reference.checkIsForNode Reference.filterEmptyTextNodes
                   Reference.selfClosingTags (fun c => c)
                   Reference.noPlugins runPostJsonPlugins Reference.noPlugins
                   Reference.noPlugins Reference.emptyNode (fun v => v)
                   (fun _ => false) (fun json => json) noCss noState rootNames
                   (fun _ => false) noText noRefs fill (fun str => Some str)
                   options component.

(** The values of the template with these stand-ins. *)
Definition values (options : ToSolidOptions) (r : bool * bool * bool * Component.t)
  : list string :=
  assembledValues Reference.checkIsForNode Reference.filterEmptyTextNodes
                  Reference.selfClosingTags (fun c => c) noCss noState rootNames
                  (fun _ => false) noText noRefs options r.

(** The structural preprocessing with these stand-ins. *)
Definition prepare
    (runPostJsonPlugins : ToSolidOptions -> Component.t -> option Component.t)
    (options : ToSolidOptions) (component : Component.t)
  : option (bool * bool * bool * Component.t) :=
  preprocess Reference.filterEmptyTextNodes Reference.noPlugins runPostJsonPlugins
             Reference.emptyNode (fun v => v) (fun _ => false) (fun json => json)
             options component.

(** A plugin of the second stage that gives every root child the name
    [Wrapper]. *)
Definition renameRoots (_ : ToSolidOptions) (json : Component.t) : option Component.t :=
  Some (Component.withChildren json
          (map (fun n => mkNode "Wrapper" (properties n) (bindings n) (children n)
                                (meta_else n) (scope n))
               (Component.children json))).

(** A component whose only dotted name is in a sub-component. *)
Definition dottedInSub : Component.t :=
  Component.mk "MyComponent" [Ex.node "div" [] [] []] [] [] None None
               [Component.mk "Inner" [Ex.node "foo.bar" [] [] []] [] [] None None [] "{}"]
               "{}".

(** [<For each={items}>] with the item name [item] and two children. *)
Definition twoChildFor : MitosisNode :=
  mkNode "For" [] [("each", Ex.bind "items")]
         [Ex.node "li" [] [] []; Ex.node "p" [] [] []] None
         (mkScope (Some "item") None).

(** [<div class="" class={x} />]: an empty [class] property next to a
    [class] binding. *)
Definition emptyClassBound : MitosisNode :=
  Ex.node "div" [("class", EmptyString)] [("class", Ex.bind "x")] [].

(** [<img src="a.png" alt="" />] given two children. *)
Definition img (c : list MitosisNode) : MitosisNode :=
  Ex.node "img" [("src", "a.png")] [] c.

(** A text node with only white space, and one with text. *)
Definition blank : MitosisNode := Ex.node "div" [("_text", "  ")] [] [].
Definition hello : MitosisNode := Ex.node "div" [("_text", "hello")] [] [].

(** [<Show when={ok}>] with an alternative. *)
Definition show (e : option MitosisNode) (tag : string) : MitosisNode :=
  mkNode tag [] [("when", Ex.bind "ok")] [hello] e (mkScope None None).

(** A component that sets two contexts, the second without value. *)
Definition twoContexts : Component.t :=
  Component.mk "MyComponent" [hello; Ex.node "p" [] [] []] []
               [("theme", ContextSet.mk "ThemeContext" (Some "{ dark: true }"));
                ("user", ContextSet.mk "UserContext" None)]
               None None [] "{}".

(** A node with a property and two bindings to rewrite. *)
Definition stateful : MitosisNode :=
  Ex.node "div" [("title", "state.title"); ("hidden", EmptyString)]
          [("onClick", mkBinding "state.n = 1" (Some ["e"]) None);
           ("value", Ex.bind "state.n")] [].

(** A rewriting of code that is idempotent: it puts a mark in front of
    code that has none. *)
Definition mark (_ : ToSolidOptions) (_ : Component.t) (_ : bool) (c : string) : string :=
  if String.prefix "#" c then c else "#" ++ c.

End Ex2.

(** * Properties *)

(** ** Dictionaries *)

Section DictFacts.

Context {V : Type}.
Implicit Types (d : Dict.t V) (k : string).

Lemma get_delete_other k k' d :
  k <> k' -> Dict.get k (Dict.delete k' d) = Dict.get k d.
Proof.
  intros Hne. induction d as [|[k0 v] d IH]; simpl; [reflexivity|].
  destruct (String.eqb_spec k0 k') as [->|Hk0]; simpl.
  - destruct (String.eqb_spec k' k) as [->|_]; [congruence|exact IH].
  - destruct (String.eqb_spec k0 k); [reflexivity|exact IH].
Qed.

Lemma get_delete_same k d : Dict.get k (Dict.delete k d) = None.
Proof.
  induction d as [|[k0 v] d IH]; simpl; [reflexivity|].
  destruct (String.eqb_spec k0 k) as [->|Hk0]; simpl; [exact IH|].
  destruct (String.eqb_spec k0 k); [contradiction|exact IH].
Qed.

Lemma delete_absent k d : Dict.get k d = None -> Dict.delete k d = d.
Proof.
  induction d as [|[k0 v] d IH]; simpl; [reflexivity|].
  destruct (String.eqb_spec k0 k) as [->|Hk0]; simpl; [discriminate|].
  intros H. now rewrite (IH H).
Qed.

Lemma get_set_same k v d : Dict.get k (Dict.set k v d) = Some v.
Proof.
  induction d as [|[k0 w] d IH]; simpl.
  - now rewrite String.eqb_refl.
  - destruct (String.eqb_spec k0 k) as [->|Hk0]; simpl.
    + now rewrite String.eqb_refl.
    + destruct (String.eqb_spec k0 k); [contradiction|exact IH].
Qed.

End DictFacts.

(** ** Class composition *)

Lemma truthyProperty_delete_other k k' json :
  k <> k' ->
  truthyProperty k (withProperties json (Dict.delete k' (properties json)))
  = truthyProperty k json.
Proof.
  intros H. unfold truthyProperty. simpl. now rewrite get_delete_other.
Qed.

Lemma delete_class_keys (b : Dict.t Binding) :
  Dict.delete "css" (Dict.delete "className" (Dict.delete "class" b)) = keptBindings b.
Proof.
  unfold keptBindings, classBindingKey, Dict.delete.
  induction b as [|[k v] b IH]; simpl; [reflexivity|].
  destruct (k =? "class"); simpl; [exact IH|].
  destruct (k =? "className"); simpl; [exact IH|].
  destruct (k =? "css"); simpl; [exact IH|now rewrite IH].
Qed.

(** Takes the next lookup of [collectClasses] apart. *)
Ltac next_source :=
  cbn [bindings properties withProperties withBindings];
  rewrite ?get_delete_other by discriminate;
  match goal with
  | |- context [match Dict.get ?k ?d with _ => _ end] =>
      let b := fresh "b" in
      destruct (Dict.get k d) as [b|] eqn:?;
      [try destruct (JS.truthy b) eqn:?|]
  end;
  cbn [fst snd JS.push app option_map checkIsDefined].

(** What [collectClasses] computes, read off the node as it was given. *)
Lemma collectClasses_sources json st :
  fst (collectClasses json st) = (staticSources json, dynamicSources st json).
Proof.
  unfold collectClasses, staticSources, dynamicSources, classBindingCodes, cssHelperCall,
    truthyProperty.
  do 5 next_source.
  all: try destruct (_ && _); reflexivity.
Qed.

Lemma delete_absent_after {V : Type} (k k' : string) (d : Dict.t V) :
  k <> k' -> Dict.get k d = None -> Dict.delete k (Dict.delete k' d) = Dict.delete k' d.
Proof.
  intros Hne H. apply delete_absent. now rewrite get_delete_other.
Qed.

(** The bindings [collectClasses] leaves are those it does not read. *)
Lemma collectClasses_bindings json st :
  bindings (snd (collectClasses json st)) = keptBindings (bindings json).
Proof.
  rewrite <- delete_class_keys.
  unfold collectClasses, truthyProperty.
  do 4 next_source.
  all: cbn [bindings properties withProperties withBindings snd];
    repeat match goal with
      | H : Dict.get ?k ?d = None |- _ =>
          first [ rewrite (delete_absent k d H)
                | rewrite (delete_absent_after k "class" d) by (discriminate || exact H) ];
          clear H
      | H : Dict.get ?k ?d = _ |- _ => clear H
      end;
    reflexivity.
Qed.

Lemma get_filter_keys {V : Type} (p : string -> bool) (k : string) (d : Dict.t V) :
  Dict.get k (filter (fun kv => negb (p (fst kv))) d)
  = if p k then None else Dict.get k d.
Proof.
  induction d as [|[k0 v] d IH]; simpl.
  - now destruct (p k).
  - destruct (String.eqb_spec k0 k) as [->|Hne].
    + destruct (p k) eqn:Hp; simpl.
      * exact IH.
      * now rewrite String.eqb_refl.
    + destruct (p k0); simpl; [exact IH|].
      destruct (String.eqb_spec k0 k); [contradiction|exact IH].
Qed.

Lemma collectClassString_node json st :
  snd (collectClassString json st) = snd (collectClasses json st).
Proof.
  unfold collectClassString.
  destruct (collectClasses json st) as [[s d] json']. simpl.
  destruct (_ && _); [reflexivity|].
  destruct (_ && _); [reflexivity|].
  destruct (_ && _); reflexivity.
Qed.

(** The value [collectClassString] returns follows the table over the
    static sources (the non-empty [class] and [className] properties) and
    the dynamic sources (the codes of the [class] and [className] bindings,
    then the [css] helper call when it applies): static only, the quoted
    join by spaces; dynamic only, the expression in braces; both, in braces
    the quoted static string with a space at its end, [+], the dynamic
    expression; neither, [null].  [blockToSolid] writes the [class]
    attribute with that value, and none for [null]. *)
Lemma class_composition_table (options : ToSolidOptions) (json : MitosisNode) :
  let s := staticSources json in
  let d := dynamicSources (stylesType options) json in
  fst (collectClassString json (stylesType options))
  = match s, d with
    | [], [] => None
    | _ :: _, [] => Some (JS.dq ++ JS.join " " s ++ JS.dq)
    | [], _ :: _ => Some ("{" ++ JS.join " + ' ' + " d ++ "}")
    | _ :: _, _ :: _ =>
        Some ("{" ++ JS.dq ++ JS.join " " s ++ " " ++ JS.dq ++ " + "
              ++ JS.join " + ' ' + " d ++ "}")
    end
  /\ fst (classToSolid options json)
     = match fst (collectClassString json (stylesType options)) with
       | Some value => " class=" ++ value ++ " "
       | None => EmptyString
       end.
Proof.
  intros s d.
  assert (Hs : fst (collectClasses json (stylesType options)) = (s, d))
    by apply collectClasses_sources.
  unfold classToSolid, collectClassString.
  destruct (collectClasses json (stylesType options)) as [[s' d'] json'].
  simpl in Hs. injection Hs as -> ->.
  destruct s as [|a s], d as [|b d]; simpl; split; reflexivity.
Qed.

(** C9.  After class composition the bindings of the node are those under
    the keys other than [class], [className] and [css], as they were and in
    their order: the [css] key is gone for every styling mode and every code
    of the binding, and a lookup under another key gives what it gave. *)
Theorem css_binding_always_removed (json : MitosisNode) (st : StylesType) :
  let json' := snd (collectClassString json st) in
  Dict.get "css" (bindings json') = None
  /\ bindings json' = keptBindings (bindings json)
  /\ forall key,
       Dict.get key (bindings json')
       = if classBindingKey key then None else Dict.get key (bindings json).
Proof.
  intros json'. subst json'.
  rewrite collectClassString_node, collectClasses_bindings.
  unfold keptBindings. split; [|split].
  - now rewrite get_filter_keys.
  - reflexivity.
  - intros key. apply get_filter_keys.
Qed.

(** C4, as the code has it.  With a [css] binding on the node, the dynamic
    class sources are the codes of the [class] and [className] bindings,
    followed by the call [css(<code>)] exactly when the styling mode is
    [styled-components] and the trimmed code is longer than four
    characters. *)
Theorem css_helper_needs_long_code (json : MitosisNode) (st : StylesType) (b : Binding) :
  Dict.get "css" (bindings json) = Some b ->
  snd (fst (collectClasses json st))
  = app (classBindingCodes json)
        (if (4 <? String.length (JS.trim (code b)))%nat
            && StylesType_eqb st styled_components
         then ["css(" ++ code b ++ ")"] else []).
Proof.
  intros H. rewrite collectClasses_sources. simpl.
  unfold dynamicSources, cssHelperCall. rewrite H.
  now destruct (_ && _).
Qed.

Lemma css_helper_needs_long_code_witness :
  snd (fst (collectClasses Ex.longCss styled_components)) = ["css({ color: 'red' })"].
Proof.
  exact (css_helper_needs_long_code Ex.longCss styled_components
           (Ex.bind "{ color: 'red' }") eq_refl).
Defined.

(** C4 fails as stated: the code [{}] of a [css] binding is not empty, and
    in the [styled-components] mode no [css({})] is among the dynamic class
    sources; the node gets no [class] attribute. *)
Lemma css_helper_skips_short_code :
  Dict.get "css" (bindings Ex.shortCss) = Some (Ex.bind "{}")
  /\ JS.truthy "{}" = true
  /\ ~ In "css({})" (snd (fst (collectClasses Ex.shortCss styled_components)))
  /\ fst (collectClassString Ex.shortCss styled_components) = None.
Proof.
  repeat split; try reflexivity. intros [].
Qed.

(** ** Text *)

Lemma append_assoc (a b c : string) : (a ++ b) ++ c = a ++ (b ++ c).
Proof. induction a as [|x a IH]; simpl; [reflexivity|now rewrite IH]. Qed.

Lemma append_empty_r (a : string) : a ++ EmptyString = a.
Proof. induction a as [|x a IH]; simpl; [reflexivity|now rewrite IH]. Qed.

Lemma emits_self (a : string) : emits a a.
Proof. exists EmptyString, EmptyString. now rewrite append_empty_r. Qed.

Lemma emits_append_l (a b part : string) : emits a part -> emits (a ++ b) part.
Proof.
  intros (x & y & ->). exists x, (y ++ b). now rewrite !append_assoc.
Qed.

Lemma emits_append_r (a b part : string) : emits b part -> emits (a ++ b) part.
Proof.
  intros (x & y & ->). exists (a ++ x), y. now rewrite !append_assoc.
Qed.

Create HintDb emits.
#[local] Hint Resolve emits_self emits_append_l emits_append_r : emits.

(** ** Attributes *)

Section RenderFacts.

Variable checkIsForNode : MitosisNode -> bool.
Variable filterEmptyTextNodes : MitosisNode -> bool.
Variable selfClosingTags : string -> bool.
Variable kebabCaseKeys : string -> string.
Variable options : ToSolidOptions.

Let render : MitosisNode -> string :=
  blockToSolid checkIsForNode filterEmptyTextNodes selfClosingTags kebabCaseKeys options.

(** The loop over the bindings only adds to the text. *)
Lemma bindingsToSolid_emits_start tag str b part :
  emits str part -> emits (bindingsToSolid kebabCaseKeys tag str b) part.
Proof.
  unfold bindingsToSolid. revert str.
  induction b as [|[k v] b IH]; simpl; intros str H; [exact H|].
  apply IH. auto with emits.
Qed.

Lemma bindingsToSolid_emits tag str b key binding :
  In (key, binding) b ->
  emits (bindingsToSolid kebabCaseKeys tag str b)
        (bindingToSolid kebabCaseKeys tag key binding).
Proof.
  revert str. induction b as [|[k v] b IH]; simpl; intros str H; [destruct H|].
  destruct H as [H|H].
  - injection H as -> ->.
    apply (bindingsToSolid_emits_start tag _ b). auto with emits.
  - apply (IH (str ++ bindingToSolid kebabCaseKeys tag k v) H).
Qed.

(** The loops run over the node class composition leaves, whose name is
    the one it had. *)
Lemma classToSolid_node json :
  snd (classToSolid options json) = snd (collectClasses json (stylesType options)).
Proof.
  unfold classToSolid. rewrite <- collectClassString_node.
  destruct (collectClassString json (stylesType options)) as [[s|] json']; simpl;
    [destruct (JS.truthy s)|]; reflexivity.
Qed.

Lemma collectClasses_name json st : name (snd (collectClasses json st)) = name json.
Proof.
  unfold collectClasses, truthyProperty. do 4 next_source; reflexivity.
Qed.

Lemma openTagToSolid_emits json fallback key binding :
  In (key, binding) (bindings json) ->
  classBindingKey key = false ->
  emits (openTagToSolid kebabCaseKeys options json fallback)
        (bindingToSolid kebabCaseKeys (name json) key binding).
Proof.
  intros Hin Hkey. unfold openTagToSolid.
  pose proof (classToSolid_node json) as Hnode.
  destruct (classToSolid options json) as [classAttr json']. simpl in Hnode. subst json'.
  rewrite collectClasses_name, collectClasses_bindings.
  apply bindingsToSolid_emits. unfold keptBindings.
  apply filter_In. split; [exact Hin|]. simpl. now rewrite Hkey.
Qed.

(** [blockToSolid] on a node that is neither text nor a [For]. *)
Lemma blockToSolid_element json :
  truthyProperty "_text" json = None ->
  truthyBindingCode "_text" json = None ->
  checkIsForNode json = false ->
  exists fallback closing,
    render json = openTagToSolid kebabCaseKeys options json fallback ++ closing.
Proof.
  intros Ht Hb Hfor.
  subst render. destruct json as [n p b c e s]. cbn [blockToSolid].
  rewrite Ht, Hb, Hfor. cbn [name meta_else children].
  eexists. destruct (selfClosingTags n).
  - eexists. reflexivity.
  - destruct (n =? "Fragment"); rewrite !append_assoc; eexists; reflexivity.
Qed.

(** [blockToSolid] on a [For] that is not text. *)
Lemma blockToSolid_for json :
  truthyProperty "_text" json = None ->
  truthyBindingCode "_text" json = None ->
  checkIsForNode json = true ->
  render json
  = forToSolid json
      (childrenToSolid checkIsForNode filterEmptyTextNodes selfClosingTags
                       kebabCaseKeys options (children json)).
Proof.
  intros Ht Hb Hfor.
  subst render. destruct json as [n p b c e s]. cbn [blockToSolid].
  rewrite Ht, Hb, Hfor. cbn [children]. f_equal.
  unfold childrenToSolid. clear Ht Hb Hfor.
  induction c as [|x c IH]; simpl; [reflexivity|].
  destruct (filterEmptyTextNodes x); simpl; now rewrite IH.
Qed.

End RenderFacts.

Lemma on_key_is_kept (key : string) :
  JS.startsWith key "on" = true -> classBindingKey key = false.
Proof.
  intros H. unfold classBindingKey.
  destruct (String.eqb_spec key "class") as [->|_]; [discriminate H|].
  destruct (String.eqb_spec key "className") as [->|_]; [discriminate H|].
  destruct (String.eqb_spec key "css") as [->|_]; [discriminate H|reflexivity].
Qed.

(** C8, as the code has it.  The piece that the loop over the bindings
    writes for a binding is empty when the binding has no code, whatever its
    key, and is the spread [{...(<code>)}] when the binding has code and the
    type [spread], whatever its key.  For a binding whose key begins with
    [on], that has code and whose type is not [spread], it is an inline
    handler: the key ([onInput] for [onChange] on an [input]), then the arrow
    function whose parameters are the declared arguments joined by commas,
    [event] when none are declared, and whose body is the code; on a node
    that is neither text nor a [For], [blockToSolid] writes that attribute
    for each such binding of the node. *)
Theorem event_binding_handler
    (checkIsForNode filterEmptyTextNodes : MitosisNode -> bool)
    (selfClosingTags : string -> bool) (kebabCaseKeys : string -> string)
    (options : ToSolidOptions) (json : MitosisNode) (key : string) (binding : Binding) :
  let piece := bindingToSolid kebabCaseKeys (name json) key binding in
  let useKey := if (key =? "onChange") && (name json =? "input") then "onInput" else key in
  let cusArg := match arguments binding with Some a => a | None => ["event"] end in
  let handler :=
    " " ++ useKey ++ "={(" ++ JS.join "," cusArg ++ ") => " ++ code binding ++ "} " in
  (JS.truthy (code binding) = false -> piece = EmptyString)
  /\ (JS.truthy (code binding) = true ->
      type binding = Some "spread" ->
      piece = " {...(" ++ code binding ++ ")} ")
  /\ (JS.startsWith key "on" = true ->
      JS.truthy (code binding) = true ->
      type binding <> Some "spread" ->
      piece = handler
      /\ (truthyProperty "_text" json = None ->
          truthyBindingCode "_text" json = None ->
          checkIsForNode json = false ->
          In (key, binding) (bindings json) ->
          emits (blockToSolid checkIsForNode filterEmptyTextNodes selfClosingTags
                              kebabCaseKeys options json)
                handler)).
Proof.
  intros piece useKey cusArg handler. subst piece. split; [|split].
  - intros Hcode. unfold bindingToSolid. now rewrite Hcode.
  - intros Hcode Htype. unfold bindingToSolid. now rewrite Hcode, Htype.
  - intros Hon Hcode Htype.
    assert (Hone : bindingToSolid kebabCaseKeys (name json) key binding = handler).
    { unfold bindingToSolid. rewrite Hcode, Hon. simpl.
      destruct (type binding) as [t|]; [|reflexivity].
      destruct (String.eqb_spec t "spread") as [->|_]; [congruence|reflexivity]. }
    split; [exact Hone|].
    intros Ht Hb Hfor Hin. rewrite <- Hone.
    destruct (blockToSolid_element checkIsForNode filterEmptyTextNodes selfClosingTags
                kebabCaseKeys options json Ht Hb Hfor) as (fallback & closing & ->).
    apply emits_append_l, openTagToSolid_emits; [exact Hin|].
    now apply on_key_is_kept.
Qed.

Lemma event_binding_handler_witness :
  bindingToSolid (fun c => c) "div" "onBlur" (Ex.bind EmptyString) = EmptyString
  /\ bindingToSolid (fun c => c) "input" "onChange"
                    (mkBinding "handlers" None (Some "spread"))
     = " {...(handlers)} "
  /\ bindingToSolid (fun c => c) "input" "onChange"
                    (mkBinding "update(e)" (Some ["e"]) None)
     = " onInput={(e) => update(e)} "
  /\ emits (Ex.render Ex.inputChange) " onInput={(e) => update(e)} ".
Proof.
  split; [|split].
  - apply (proj1 (event_binding_handler
                    Reference.checkIsForNode Reference.filterEmptyTextNodes
                    Reference.selfClosingTags (fun c => c) DEFAULT_OPTIONS
                    Ex.emptyHandler "onBlur" (Ex.bind EmptyString))).
    reflexivity.
  - apply (proj1 (proj2 (event_binding_handler
                           Reference.checkIsForNode Reference.filterEmptyTextNodes
                           Reference.selfClosingTags (fun c => c) DEFAULT_OPTIONS
                           Ex.inputChange "onChange"
                           (mkBinding "handlers" None (Some "spread")))));
      reflexivity.
  - destruct (proj2 (proj2 (event_binding_handler
                              Reference.checkIsForNode Reference.filterEmptyTextNodes
                              Reference.selfClosingTags (fun c => c) DEFAULT_OPTIONS
                              Ex.inputChange "onChange"
                              (mkBinding "update(e)" (Some ["e"]) None)))
                     eq_refl eq_refl ltac:(discriminate)) as [H1 H2].
    split; [exact H1|].
    apply H2; [reflexivity|reflexivity|reflexivity|left; reflexivity].
Defined.

(** C8 fails as stated: a binding of type [spread] under a key that begins
    with [on] is written as a spread and not as a handler, and a binding
    without code under [onClick] is not written at all. *)
Lemma event_binding_spread_or_empty :
  JS.startsWith "onSpread" "on" = true
  /\ Ex.render Ex.spreadOn = "<div  {...(onSpread)} ></div>"
  /\ ~ emits (Ex.render Ex.spreadOn) "=>"
  /\ JS.startsWith "onClick" "on" = true
  /\ Ex.render Ex.emptyHandler = "<div ></div>".
Proof.
  repeat split; try reflexivity.
  intros (before & after & H). vm_compute in H.
  repeat (destruct before as [|? before]; simpl in H; try discriminate H;
          injection H as <- H).
Qed.

(** ** Iteration *)

(** The [For] template.  A [For] node that is not text is rendered as
    one [<For each={...}>] whose iterable is the code of the [each] binding;
    the callback takes the item under [scope.forName] and the index signal
    under [_index], and its body first binds [scope.indexName], or [index]
    when that is absent or empty, to [_index()]; the rendered children,
    joined by commas, are put in a fragment exactly when the node does not
    have exactly one child: also when it has none. *)
Lemma for_node_rendering
    (checkIsForNode filterEmptyTextNodes : MitosisNode -> bool)
    (selfClosingTags : string -> bool) (kebabCaseKeys : string -> string)
    (options : ToSolidOptions) (json : MitosisNode) :
  truthyProperty "_text" json = None ->
  truthyBindingCode "_text" json = None ->
  checkIsForNode json = true ->
  let render :=
    blockToSolid checkIsForNode filterEmptyTextNodes selfClosingTags kebabCaseKeys options in
  let needsWrapper := negb (length (children json) =? 1)%nat in
  render json
  = "<For each={" ++ JS.show (option_map code (Dict.get "each" (bindings json))) ++ "}>"
    ++ JS.nl ++ "    {(" ++ JS.show (forName (scope json)) ++ ", _index) => {"
    ++ JS.nl ++ "      const " ++ orElse (indexName (scope json)) "index" ++ " = _index();"
    ++ JS.nl ++ "      return " ++ (if needsWrapper then "<>" else EmptyString)
    ++ JS.join "," (map render (filter filterEmptyTextNodes (children json))) ++ "}}"
    ++ JS.nl ++ "      " ++ (if needsWrapper then "</>" else EmptyString)
    ++ JS.nl ++ "    </For>".
Proof.
  intros Ht Hb Hfor render needsWrapper. subst render.
  rewrite blockToSolid_for by assumption. reflexivity.
Qed.

Lemma for_node_rendering_witness :
  Ex.render Ex.oneChildFor
  = "<For each={items}>"
    ++ JS.nl ++ "    {(item, _index) => {"
    ++ JS.nl ++ "      const index = _index();"
    ++ JS.nl ++ "      return <li ></li>}}"
    ++ JS.nl ++ "      "
    ++ JS.nl ++ "    </For>".
Proof.
  exact (for_node_rendering
           Reference.checkIsForNode Reference.filterEmptyTextNodes
           Reference.selfClosingTags (fun c => c) DEFAULT_OPTIONS
           Ex.oneChildFor eq_refl eq_refl eq_refl).
Defined.

(** A [For] without any child is rendered with the fragment opened in the
    callback and closed after it. *)
Lemma for_without_children_is_wrapped :
  Reference.checkIsForNode Ex.emptyFor = true
  /\ length (children Ex.emptyFor) = 0
  /\ Ex.render Ex.emptyFor
     = "<For each={items}>"
       ++ JS.nl ++ "    {(item, _index) => {"
       ++ JS.nl ++ "      const index = _index();"
       ++ JS.nl ++ "      return <>}}"
       ++ JS.nl ++ "      </>"
       ++ JS.nl ++ "    </For>".
Proof. repeat split. Qed.

(** ** Imports *)

Lemma In_checkIsDefined (x : string) (l : list (option string)) :
  In x (checkIsDefined l) <-> In (Some x) l.
Proof.
  induction l as [|[a|] l IH]; simpl.
  - tauto.
  - rewrite IH. split; intros [H|H]; auto; left; congruence.
  - rewrite IH. split; [auto|]. intros [H|H]; [discriminate|exact H].
Qed.

(** [notIn out a]: the test of [uniq] that [a] is not yet in [out]. *)
Lemma notIn_spec (out : list string) (a : string) :
  forallb (fun o => negb (o =? a)) out = true <-> ~ In a out.
Proof.
  induction out as [|o out IH]; simpl; [tauto|].
  rewrite andb_true_iff, IH, negb_true_iff, String.eqb_neq. tauto.
Qed.

Lemma In_uniqLoop (x : string) (out rest : list string) :
  In x (JS.uniqLoop out rest) <-> In x out \/ In x rest.
Proof.
  revert out. induction rest as [|a rest IH]; intros out; simpl; [tauto|].
  destruct (forallb _ out) eqn:Hout.
  - rewrite IH. unfold JS.push. rewrite in_app_iff. simpl. tauto.
  - rewrite IH. split; [tauto|]. intros [H|[H|H]]; auto.
    subst x. left.
    destruct (in_dec string_dec a out) as [Hin|Hnot]; [exact Hin|].
    apply notIn_spec in Hnot. congruence.
Qed.

Lemma In_uniq (x : string) (l : list string) : In x (JS.uniq l) <-> In x l.
Proof.
  destruct l as [|a l]; simpl; [tauto|].
  rewrite In_uniqLoop. simpl. tauto.
Qed.

Lemma filter_notIn_push (out : list string) (a : string) (l : list string) :
  filter (fun x => forallb (fun o => negb (o =? x)) (JS.push out a)) l
  = filter (fun x => forallb (fun o => negb (o =? x)) out)
           (filter (fun x => negb (x =? a)) l).
Proof.
  induction l as [|x l IH]; simpl; [reflexivity|].
  unfold JS.push in *. rewrite forallb_app. simpl.
  rewrite andb_true_r, (String.eqb_sym a x).
  destruct (x =? a); simpl.
  - rewrite andb_false_r. exact IH.
  - rewrite andb_true_r. destruct (forallb _ out); now rewrite IH.
Qed.

Lemma filter_notIn_member (out : list string) (a : string) (l : list string) :
  In a out ->
  filter (fun x => forallb (fun o => negb (o =? x)) out)
         (filter (fun x => negb (x =? a)) l)
  = filter (fun x => forallb (fun o => negb (o =? x)) out) l.
Proof.
  intros Ha. induction l as [|x l IH]; simpl; [reflexivity|].
  destruct (String.eqb_spec x a) as [->|Hne]; simpl.
  - destruct (forallb _ out) eqn:Hout; [|exact IH].
    apply notIn_spec in Hout. contradiction.
  - now rewrite IH.
Qed.

(** [uniq] keeps the first occurrences, in their order. *)
Lemma uniqLoop_firstOccurrences (out rest : list string) :
  JS.uniqLoop out rest
  = (out ++ filter (fun x => forallb (fun o => negb (o =? x)) out)
                   (firstOccurrences rest))%list.
Proof.
  revert out. induction rest as [|a rest IH]; intros out; simpl.
  - now rewrite app_nil_r.
  - destruct (forallb _ out) eqn:Hout.
    + rewrite IH, filter_notIn_push. unfold JS.push.
      now rewrite <- app_assoc.
    + rewrite IH. f_equal. symmetry. apply filter_notIn_member.
      destruct (in_dec string_dec a out) as [Hin|Hnot]; [exact Hin|].
      apply notIn_spec in Hnot. congruence.
Qed.

Lemma uniq_firstOccurrences (l : list string) : JS.uniq l = firstOccurrences l.
Proof.
  destruct l as [|a l]; simpl; [reflexivity|].
  rewrite uniqLoop_firstOccurrences. simpl. f_equal.
  apply filter_ext. intros x. rewrite andb_true_r. now rewrite String.eqb_sym.
Qed.

Lemma NoDup_firstOccurrences (l : list string) : NoDup (firstOccurrences l).
Proof.
  induction l as [|a l IH]; simpl; constructor.
  - rewrite filter_In. intros [_ H]. now rewrite String.eqb_refl in H.
  - now apply NoDup_filter.
Qed.

Lemma In_importCandidates (x : string) json (c s f : bool) state :
  In x (importCandidates json c s f state)
  <-> (c = true /\ x = "useContext") \/ (s = true /\ x = "Show")
      \/ (f = true /\ x = "For")
      \/ (onMountCode json <> None /\ x = "onMount")
      \/ (hasOnUpdate json = true /\ (x = "on" \/ x = "createEffect"))
      \/ In x (stateImports state).
Proof.
  unfold importCandidates. rewrite In_checkIsDefined, !in_app_iff, !in_map_iff.
  split.
  - intros [H|[(y & Hy & H)|(y & Hy & H)]].
    + simpl in H. destruct H as [H|[H|[H|[H|[]]]]].
      * destruct c; [|discriminate]. injection H as <-. auto.
      * destruct s; [|discriminate]. injection H as <-. auto.
      * destruct f; [|discriminate]. injection H as <-. auto 6.
      * destruct (onMountCode json); [|discriminate]. injection H as <-.
        right; right; right; left. split; [discriminate|reflexivity].
    + injection Hy as ->. destruct (hasOnUpdate json); [|destruct H].
      right; right; right; right; left. split; [reflexivity|].
      destruct H as [H|[H|[]]]; auto.
    + injection Hy as ->. auto 10.
  - intros [[-> ->]|[[-> ->]|[[-> ->]|[[H ->]|[[H Hx]|H]]]]].
    + left. simpl. auto.
    + left. simpl. auto.
    + left. simpl. auto.
    + left. simpl. destruct (onMountCode json); [auto 6|congruence].
    + right; left. exists x. rewrite H. split; [reflexivity|].
      destruct Hx as [->| ->]; simpl; auto.
    + right; right. exists x. auto.
Qed.

(** C3, as the code has it.  [on] is among the imported symbols exactly
    when [hooks.onUpdate] has at least one entry, with [deps] or without, or
    the state module asks for it; and the same holds of [createEffect]. *)
Theorem effect_imports_follow_onUpdate
    (json : Component.t) (componentHasContext hasShowComponent hasForComponent : bool)
    (state : option State.t) :
  let imports :=
    solidJSImports json componentHasContext hasShowComponent hasForComponent state in
  (In "on" imports <-> hasOnUpdate json = true \/ In "on" (stateImports state))
  /\ (In "createEffect" imports
      <-> hasOnUpdate json = true \/ In "createEffect" (stateImports state)).
Proof.
  intros imports. subst imports. unfold solidJSImports.
  rewrite !In_uniq, !In_importCandidates.
  split; (split;
    [ intros [[_ H]|[[_ H]|[[_ H]|[[_ H]|[[H _]|H]]]]]; try discriminate H; auto
    | intros [H|H]; [right; right; right; right; left; auto|auto 10] ]).
Qed.

(** C3 fails as stated: with two [onUpdate] hooks that have no [deps], and
    no import asked for by the state module, the imported symbols are [on]
    and [createEffect], while no effect is registered. *)
Lemma effect_imports_without_deps :
  Component.hooks_onUpdate Ex.withoutDeps
  = Some [Hook.mk "log()" None; Hook.mk "tick()" None]
  /\ solidJSImports Ex.withoutDeps false false false None = ["on"; "createEffect"]
  /\ onUpdateToSolid Ex.withoutDeps = JS.nl.
Proof. repeat split. Qed.

(** C5.  When the component has no context, no [Show] and no [For] among
    the components used, no [onMount] code, no [onUpdate] entry, and the
    state module asks for no import, the imported symbols are none; with an
    [onMount] hook with code added they are [onMount] alone.  For every
    component the imported symbols are the candidates in the order of their
    first occurrence, each once. *)
Theorem import_minimality (json : Component.t) (state : option State.t) :
  onMountCode json = None ->
  hasOnUpdate json = false ->
  stateImports state = [] ->
  solidJSImports json false false false state = []
  /\ (forall hook : Hook.t,
        JS.truthy (Hook.code hook) = true ->
        solidJSImports (Component.withOnMount json hook) false false false state
        = ["onMount"])
  /\ (forall (json' : Component.t) (c s f : bool) (state' : option State.t),
        solidJSImports json' c s f state'
        = firstOccurrences (importCandidates json' c s f state')
        /\ NoDup (solidJSImports json' c s f state')).
Proof.
  intros Hmount Hupdate Hstate. split; [|split].
  - unfold solidJSImports, importCandidates. now rewrite Hmount, Hupdate, Hstate.
  - intros hook Hcode.
    unfold solidJSImports, importCandidates, onMountCode, hasOnUpdate in *.
    simpl. now rewrite Hcode, Hupdate, Hstate.
  - intros json' c s f state'. unfold solidJSImports.
    rewrite uniq_firstOccurrences. split; [reflexivity|apply NoDup_firstOccurrences].
Qed.

Lemma import_minimality_witness :
  solidJSImports Ex.bare false false false None = []
  /\ solidJSImports (Component.withOnMount Ex.bare (Hook.mk "init()" None))
                    false false false None
     = ["onMount"].
Proof.
  destruct (import_minimality Ex.bare None eq_refl eq_refl eq_refl) as (H1 & H2 & _).
  split; [exact H1|]. apply H2. reflexivity.
Defined.

(** ** Effects *)

Lemma length_mapi {A B : Type} (f : A -> nat -> B) (index : nat) (l : list A) :
  length (mapi f index l) = length l.
Proof.
  revert index. induction l as [|x l IH]; intros index; simpl; [reflexivity|].
  now rewrite IH.
Qed.

Lemma nth_error_mapi {A B : Type} (f : A -> nat -> B) (index : nat) (l : list A) (i : nat) :
  nth_error (mapi f index l) i = option_map (fun x => f x (index + i)) (nth_error l i).
Proof.
  revert index i. induction l as [|x l IH]; intros index [|i]; simpl; try reflexivity.
  - now rewrite Nat.add_0_r.
  - rewrite IH. now rewrite Nat.add_succ_r.
Qed.

(** The text written for [hooks.onUpdate] is the join by line feeds of
    one piece for each entry, in order.  The piece of the entry at position
    [i] is, when the entry has a non-empty [deps], the function
    [onUpdateFn_<i>] with the code of the hook as body, followed by
    [createEffect(on(() => <deps>, onUpdateFn_<i>))]; it is empty when the
    entry has no [deps].  Nothing can fail there. *)
Lemma onUpdateToSolid_pieces (json : Component.t) (hooks : list Hook.t) :
  Component.hooks_onUpdate json = Some hooks ->
  exists pieces : list string,
    onUpdateToSolid json = JS.join JS.nl pieces
    /\ length pieces = length hooks
    /\ forall (i : nat) (hook : Hook.t),
         nth_error hooks i = Some hook ->
         nth_error pieces i
         = Some (match Hook.deps hook with
                 | Some d =>
                     if JS.truthy d then
                       JS.nl ++ "                    function onUpdateFn_" ++ JS.showNat i
                       ++ "() { " ++ Hook.code hook ++ " };"
                       ++ JS.nl ++ "                    createEffect(on(() => " ++ d
                       ++ ", onUpdateFn_" ++ JS.showNat i ++ "));"
                       ++ JS.nl ++ "                  "
                     else EmptyString
                 | None => EmptyString
                 end).
Proof.
  intros H. exists (mapi onUpdateHookToSolid 0 hooks).
  unfold onUpdateToSolid. rewrite H. split; [reflexivity|]. split; [apply length_mapi|].
  intros i hook Hi. rewrite nth_error_mapi, Hi. simpl.
  unfold onUpdateHookToSolid.
  destruct (Hook.deps hook) as [d|]; [|reflexivity].
  destruct (JS.truthy d); reflexivity.
Qed.


(** ** Dynamic components *)

Section NodeInduction.

Variable P : MitosisNode -> Prop.

Hypothesis step :
  forall n p b c e s,
    Forall P c ->
    match e with Some x => P x | None => True end ->
    P (mkNode n p b c e s).

(** Induction on a node with the hypothesis for its children and for its
    [meta.else]. *)
Lemma MitosisNode_nested_ind : forall node, P node.
Proof.
  fix IH 1. intros [n p b c e s]. apply step.
  - induction c as [|x c IHc]; constructor; [apply IH|exact IHc].
  - destruct e; [apply IH|exact I].
Qed.

End NodeInduction.

Lemma processDynamicNode_unfold (found : bool) (node : MitosisNode) :
  processDynamicNode found node
  = let hit := JS.includes (name node) "." in
    let visited := if hit then markDynamic node else node in
    let found := if hit then true else found in
    let '(found, children') := processDynamicNodes found (children node) in
    let '(found, else') :=
      match meta_else node with
      | Some e => let '(found, e') := processDynamicNode found e in (found, Some e')
      | None => (found, None)
      end in
    (found,
     mkNode (name visited) (properties visited) (bindings visited) children' else'
            (scope visited)).
Proof. destruct node. reflexivity. Qed.

Lemma processDynamicNodes_split (l : list MitosisNode) :
  Forall (fun c => forall found,
            processDynamicNode found c = (found || hasDynamic c, rewriteDynamic c)) l ->
  forall found,
    processDynamicNodes found l = (found || existsb hasDynamic l, map rewriteDynamic l).
Proof.
  induction 1 as [|c l Hc _ IH]; intros found; simpl.
  - now rewrite orb_false_r.
  - rewrite Hc, IH. now rewrite orb_assoc.
Qed.

(** The walk gives the rewritten tree, and raises the flag exactly when it
    meets a dotted name. *)
Lemma processDynamicNode_split (node : MitosisNode) :
  forall found,
    processDynamicNode found node = (found || hasDynamic node, rewriteDynamic node).
Proof.
  induction node as [n p b c e s Hc He] using MitosisNode_nested_ind.
  intros found. rewrite processDynamicNode_unfold. cbn [name children meta_else].
  rewrite (processDynamicNodes_split c Hc).
  cbn [rewriteDynamic hasDynamic name children meta_else].
  destruct e as [x|].
  - rewrite He. destruct (JS.includes n "."); simpl;
      rewrite ?orb_true_r, ?orb_assoc; reflexivity.
  - destruct (JS.includes n "."); simpl;
      rewrite ?orb_true_r, ?orb_false_r; reflexivity.
Qed.

Section ComponentInduction.

Variable P : Component.t -> Prop.

Hypothesis step :
  forall n c g s m u subs r, Forall P subs -> P (Component.mk n c g s m u subs r).

(** Induction on a component with the hypothesis for its sub-components. *)
Lemma Component_nested_ind : forall json, P json.
Proof.
  fix IH 1. intros [n c g s m u subs r]. apply step.
  induction subs as [|x subs IHsubs]; constructor; [apply IH|exact IHsubs].
Qed.

End ComponentInduction.

Lemma rewriteDynamicComponent_children (json : Component.t) :
  Component.children (rewriteDynamicComponent json)
  = map rewriteDynamic (Component.children json).
Proof. destruct json. reflexivity. Qed.

Lemma rewriteDynamicComponent_subComponents (json : Component.t) :
  Component.subComponents (rewriteDynamicComponent json)
  = map rewriteDynamicComponent (Component.subComponents json).
Proof. destruct json. reflexivity. Qed.

Lemma hasDynamicComponent_unfold (json : Component.t) :
  hasDynamicComponent json
  = existsb hasDynamic (Component.children json)
    || existsb hasDynamicComponent (Component.subComponents json).
Proof. destruct json. reflexivity. Qed.

(** The walk over a component gives the rewritten component, and raises the
    flag exactly when it meets a dotted name. *)
Lemma processDynamicComponent_split (json : Component.t) :
  forall found,
    processDynamicComponent found json
    = (found || hasDynamicComponent json, rewriteDynamicComponent json).
Proof.
  induction json as [n c g s m u subs r Hsubs] using Component_nested_ind.
  intros found. cbn [processDynamicComponent Component.children Component.subComponents].
  rewrite processDynamicNodes_split
    by (apply Forall_forall; intros x _; apply processDynamicNode_split).
  match goal with
  | |- context [?F (found || existsb hasDynamic c) subs] =>
      assert (Hwalk : forall f,
                 F f subs
                 = (f || existsb hasDynamicComponent subs,
                    map rewriteDynamicComponent subs))
  end.
  { induction Hsubs as [|x subs Hx _ IH]; intros f; simpl.
    - now rewrite orb_false_r.
    - rewrite Hx, IH. now rewrite orb_assoc. }
  rewrite Hwalk. cbn [hasDynamicComponent rewriteDynamicComponent Component.name
    Component.children Component.context_get Component.context_set
    Component.hooks_onMount Component.hooks_onUpdate Component.subComponents
    Component.rest].
  now rewrite orb_assoc.
Qed.

Lemma processDynamicComponents_split (json : Component.t) :
  processDynamicComponents json = (hasDynamicComponent json, rewriteDynamicComponent json).
Proof.
  unfold processDynamicComponents. now rewrite processDynamicComponent_split.
Qed.

(** What the pass leaves of the root children, and when it raises its flag
    for them. *)
Lemma processDynamicComponents_children (json : Component.t) :
  Component.children (snd (processDynamicComponents json))
  = map rewriteDynamic (Component.children json).
Proof.
  rewrite processDynamicComponents_split. apply rewriteDynamicComponent_children.
Qed.

Lemma processDynamicComponents_found_children (json : Component.t) :
  existsb hasDynamic (Component.children json) = true ->
  fst (processDynamicComponents json) = true.
Proof.
  intros H. rewrite processDynamicComponents_split. cbn [fst].
  now rewrite hasDynamicComponent_unfold, H.
Qed.


Lemma rewriteDynamic_name node :
  name (rewriteDynamic node)
  = if JS.includes (name node) "." then "Dynamic" else name node.
Proof. destruct node as [n p b c e s]. simpl. now destruct (JS.includes n "."). Qed.

Lemma rewriteDynamic_bindings node :
  bindings (rewriteDynamic node)
  = if JS.includes (name node) "."
    then Dict.set "component" (mkBinding (name node) None None) (bindings node)
    else bindings node.
Proof. destruct node as [n p b c e s]. simpl. now destruct (JS.includes n "."). Qed.

Lemma rewriteDynamic_children node :
  children (rewriteDynamic node) = map rewriteDynamic (children node).
Proof. destruct node. reflexivity. Qed.

Lemma rewriteDynamic_meta_else node :
  meta_else (rewriteDynamic node) = option_map rewriteDynamic (meta_else node).
Proof. destruct node as [n p b c [e|] s]; reflexivity. Qed.

(** The walk keeps the shape of the tree. *)
Lemma nodeAt_rewriteDynamic path root :
  nodeAt path (rewriteDynamic root) = option_map rewriteDynamic (nodeAt path root).
Proof.
  revert root. induction path as [|[i|] path IH]; intros root; simpl.
  - reflexivity.
  - rewrite rewriteDynamic_children, nth_error_map.
    destruct (nth_error (children root) i); simpl; [apply IH|reflexivity].
  - rewrite rewriteDynamic_meta_else.
    destruct (meta_else root); simpl; [apply IH|reflexivity].
Qed.

Lemma hasDynamic_unfold node :
  hasDynamic node
  = JS.includes (name node) "."
    || existsb hasDynamic (children node)
    || match meta_else node with Some e => hasDynamic e | None => false end.
Proof. destruct node. reflexivity. Qed.

Lemma hasDynamic_nodeAt path root node :
  nodeAt path root = Some node ->
  JS.includes (name node) "." = true ->
  hasDynamic root = true.
Proof.
  revert root. induction path as [|[i|] path IH]; intros root; simpl.
  - intros [= ->] H. rewrite hasDynamic_unfold, H. reflexivity.
  - destruct (nth_error (children root) i) as [c|] eqn:Hc; [|discriminate].
    intros Hn H. rewrite hasDynamic_unfold.
    assert (existsb hasDynamic (children root) = true) as ->.
    { apply existsb_exists. exists c. split; [eapply nth_error_In; eauto|eauto]. }
    now rewrite orb_true_r.
  - destruct (meta_else root) as [e|] eqn:He; [|discriminate].
    intros Hn H. rewrite hasDynamic_unfold, He, (IH e Hn H).
    now rewrite orb_true_r.
Qed.


(** A node of the root children with a dotted name, after the pass. *)
Lemma componentNodeAt_dotted
    (json : Component.t) (i : nat) (path : list Step) (node : MitosisNode) :
  componentNodeAt i path json = Some node ->
  JS.includes (name node) "." = true ->
  (exists node',
     componentNodeAt i path (snd (processDynamicComponents json)) = Some node'
     /\ name node' = "Dynamic"
     /\ Dict.get "component" (bindings node') = Some (mkBinding (name node) None None))
  /\ existsb hasDynamic (Component.children json) = true.
Proof.
  intros Hat Hdot. unfold componentNodeAt in *.
  rewrite processDynamicComponents_children, nth_error_map.
  destruct (nth_error (Component.children json) i) as [root|] eqn:Hroot; [|discriminate].
  cbn [option_map]. rewrite nodeAt_rewriteDynamic, Hat. cbn [option_map]. split.
  - exists (rewriteDynamic node). split; [reflexivity|].
    rewrite rewriteDynamic_name, rewriteDynamic_bindings, Hdot.
    split; [reflexivity|apply get_set_same].
  - apply existsb_exists. exists root. split; [eapply nth_error_In; eauto|].
    eapply hasDynamic_nodeAt; eauto.
Qed.

(** ** Context providers *)

Lemma includes_provider (contextName : string) :
  JS.includes (contextName ++ ".Provider") "." = true.
Proof.
  induction contextName as [|c n IH]; [reflexivity|].
  cbn [append JS.includes]. rewrite IH. apply orb_true_r.
Qed.

(** The dynamic-component pass turns a chain of providers into a chain of
    [Dynamic] nodes that carry the names of the providers. *)
Lemma providers_rewriteDynamic (names : list string) (l : list MitosisNode) :
  providers isProvider names l ->
  providers isDynamicProvider names (map rewriteDynamic l).
Proof.
  revert l. induction names as [|n names IH]; intros l; simpl; [trivial|].
  intros (node & -> & Hname & Hrest). unfold isProvider in Hname.
  exists (rewriteDynamic node). split; [reflexivity|]. split.
  - unfold isDynamicProvider.
    rewrite rewriteDynamic_name, rewriteDynamic_bindings, Hname, includes_provider.
    split; [reflexivity|apply get_set_same].
  - rewrite rewriteDynamic_children. now apply IH.
Qed.

Section Providers.

Variable filterEmptyTextNodes : MitosisNode -> bool.
Variable runPreJsonPlugins : ToSolidOptions -> Component.t -> option Component.t.
Variable runPostJsonPlugins : ToSolidOptions -> Component.t -> option Component.t.
Variable emptyNode : MitosisNode.
Variable stringifyContextValue : string -> string.
Variable hasCss : Component.t -> bool.
Variable stripMetaProperties : Component.t -> Component.t.

Let wrap : Component.t -> Component.t :=
  addProviderComponents emptyNode stringifyContextValue.

(** The loop of [addProviderComponents] puts one provider around the
    children for each entry, the last entry outermost. *)
Lemma addProviderComponents_loop (entries : Dict.t ContextSet.t) :
  forall (json : Component.t) (names : list string),
    providers isProvider names (Component.children json) ->
    providers isProvider
      (rev (map (fun kv => ContextSet.name (snd kv)) entries) ++ names)%list
      (Component.children
         (fold_left
            (fun json kv =>
               addProviderComponent emptyNode stringifyContextValue json (snd kv))
            entries json)).
Proof.
  induction entries as [|[key entry] entries IH]; intros json names H; simpl.
  - exact H.
  - rewrite <- app_assoc. simpl. apply IH. simpl.
    eexists. split; [reflexivity|]. split; [reflexivity|exact H].
Qed.

Lemma addProviderComponents_providers (json : Component.t) :
  providers isProvider (contextNames json) (Component.children (wrap json)).
Proof.
  subst wrap. unfold addProviderComponents, contextNames.
  rewrite <- (app_nil_r (rev _)). now apply addProviderComponents_loop.
Qed.

(** The providers through the structural preprocessing: when the plugins
    of the second stage and [stripMetaProperties] keep them in place and
    named, every one of them ends renamed [Dynamic], with a [component]
    binding whose code is [<name>.Provider], and the flag of the pass is
    raised. *)
Lemma preprocess_providers
    (options : ToSolidOptions) (component json1 json2 : Component.t) :
  runPreJsonPlugins options component = Some json1 ->
  Component.context_set json1 <> [] ->
  runPostJsonPlugins options (wrap json1) = Some json2 ->
  providers isProvider (contextNames json1)
            (Component.children (stripMetaProperties json2)) ->
  (exists provider contextName rest,
     contextNames json1 = contextName :: rest
     /\ Component.children (wrap json1) = [provider]
     /\ name provider = contextName ++ ".Provider")
  /\ providers isProvider (contextNames json1) (Component.children (wrap json1))
  /\ exists (componentHasStyles addWrapper found : bool) (json' : Component.t),
       preprocess filterEmptyTextNodes runPreJsonPlugins runPostJsonPlugins emptyNode
                  stringifyContextValue hasCss stripMetaProperties options component
       = Some (componentHasStyles, addWrapper, found, json')
       /\ providers isDynamicProvider (contextNames json1) (Component.children json')
       /\ found = true
       /\ dynamicImportLine found = "import { Dynamic } from 'solid-js/web';".
Proof.
  intros Hpre Hset Hpost Hkept.
  pose proof (addProviderComponents_providers json1) as Hwrap.
  assert (Hnames : exists contextName rest, contextNames json1 = contextName :: rest).
  { unfold contextNames. destruct (Component.context_set json1) as [|kv l];
      [congruence|].
    simpl. destruct (rev (map _ l)); simpl; eauto. }
  destruct Hnames as (contextName & rest & Hnames).
  split; [|split; [exact Hwrap|]].
  - rewrite Hnames in Hwrap. destruct Hwrap as (provider & Hp & Hn & _).
    exists provider, contextName, rest. auto.
  - unfold preprocess. rewrite Hpre. fold wrap. rewrite Hpost.
    pose proof (processDynamicComponents_children (stripMetaProperties json2)) as Hc.
    pose proof (processDynamicComponents_found_children (stripMetaProperties json2))
      as Hf.
    destruct (processDynamicComponents (stripMetaProperties json2)) as [found json'].
    cbn [fst snd] in Hc, Hf.
    do 4 eexists. split; [reflexivity|].
    rewrite Hc. split; [now apply providers_rewriteDynamic|].
    assert (Hfound : found = true).
    { apply Hf. rewrite Hnames in Hkept. destruct Hkept as (provider & -> & Hn & _).
      simpl. rewrite hasDynamic_unfold. unfold isProvider in Hn.
      now rewrite Hn, includes_provider. }
    rewrite Hfound. split; reflexivity.
Qed.

End Providers.


(** ** The place of the pieces in the module text *)

Section TemplateFacts.

Variable checkIsForNode : MitosisNode -> bool.
Variable filterEmptyTextNodes : MitosisNode -> bool.
Variable selfClosingTags : string -> bool.
Variable kebabCaseKeys : string -> string.
Variable getComponentsUsed : Component.t -> list string.
Variable hasContext : Component.t -> bool.
Variable renderPreComponent : Component.t -> string.
Variable getRefs : Component.t -> list string.

Let values :=
  templateValues checkIsForNode filterEmptyTextNodes selfClosingTags kebabCaseKeys
                 getComponentsUsed hasContext renderPreComponent getRefs.

(** The template has one literal part more than it has values. *)
Lemma template_shape options json styles wrapper found css state :
  length templateStrings = S (length (values options json styles wrapper found css state)).
Proof. reflexivity. Qed.

(** The first value is the import from [solid-js] of the symbols of
    [solidJSImports], computed from the flags of the helpers. *)
Lemma template_solid_import options json styles wrapper found css state :
  nth_error (values options json styles wrapper found css state) 0
  = Some (solidJSImportLine
            (solidJSImports json (hasContext json)
                            (has "Show" (getComponentsUsed json))
                            (has "For" (getComponentsUsed json)) state)).
Proof. reflexivity. Qed.

(** The second value is the import of [Dynamic], for the flag of
    [processDynamicComponents]. *)
Lemma template_dynamic_import options json styles wrapper found css state :
  nth_error (values options json styles wrapper found css state) 1
  = Some (dynamicImportLine found).
Proof. reflexivity. Qed.

(** The eleventh value is the text for [hooks.onUpdate]. *)
Lemma template_onUpdate options json styles wrapper found css state :
  nth_error (values options json styles wrapper found css state) 10
  = Some (onUpdateToSolid json).
Proof. reflexivity. Qed.

End TemplateFacts.

(** * Further properties *)

(** ** The dynamic-component pass *)


(** A tree in which the walk meets no dotted name is left as it is. *)
Lemma rewriteDynamic_without_dots (node : MitosisNode) :
  hasDynamic node = false -> rewriteDynamic node = node.
Proof.
  induction node as [n p b c e s Hc He] using MitosisNode_nested_ind.
  cbn [hasDynamic rewriteDynamic name children meta_else].
  rewrite !orb_false_iff. intros [[Hn Hkids] Helse]. rewrite Hn. simpl. f_equal.
  - induction Hc as [|x c Hx _ IH]; simpl in *; [reflexivity|].
    apply orb_false_iff in Hkids. destruct Hkids as [H1 H2].
    now rewrite Hx, IH.
  - destruct e as [x|]; [|reflexivity]. now rewrite He.
Qed.

(** Where the walk meets a dotted name, there is a node with one. *)
Lemma hasDynamic_position (root : MitosisNode) :
  hasDynamic root = true ->
  exists path node, nodeAt path root = Some node /\ JS.includes (name node) "." = true.
Proof.
  induction root as [n p b c e s Hc He] using MitosisNode_nested_ind.
  cbn [hasDynamic name children meta_else].
  rewrite !orb_true_iff. intros [[Hn|Hkids]|Helse].
  - exists [], (mkNode n p b c e s). split; [reflexivity|exact Hn].
  - apply existsb_exists in Hkids. destruct Hkids as (x & Hin & Hx).
    apply In_nth_error in Hin. destruct Hin as (i & Hi).
    rewrite Forall_forall in Hc.
    destruct (Hc x (nth_error_In _ _ Hi) Hx) as (path & node & Hat & Hdot).
    exists (child i :: path), node. simpl. rewrite Hi. auto.
  - destruct e as [x|]; [|discriminate].
    destruct (He Helse) as (path & node & Hat & Hdot).
    exists (alternate :: path), node. simpl. auto.
Qed.

(** After the walk no name has a dot. *)
Lemma hasDynamic_rewriteDynamic (node : MitosisNode) :
  hasDynamic (rewriteDynamic node) = false.
Proof.
  induction node as [n p b c e s Hc He] using MitosisNode_nested_ind.
  rewrite hasDynamic_unfold, rewriteDynamic_name, rewriteDynamic_children,
    rewriteDynamic_meta_else.
  cbn [name children meta_else].
  assert (Hn : JS.includes (if JS.includes n "." then "Dynamic" else n) "." = false).
  { destruct (JS.includes n ".") eqn:H; [reflexivity|exact H]. }
  rewrite Hn. simpl.
  assert (Hkids : existsb hasDynamic (map rewriteDynamic c) = false).
  { induction Hc as [|x c Hx _ IH]; simpl; [reflexivity|]. now rewrite Hx, IH. }
  rewrite Hkids. simpl. destruct e as [x|]; [exact He|reflexivity].
Qed.

Lemma existsb_hasDynamic_rewritten (l : list MitosisNode) :
  existsb hasDynamic (map rewriteDynamic l) = false.
Proof.
  induction l as [|x l IH]; simpl; [reflexivity|].
  now rewrite hasDynamic_rewriteDynamic, IH.
Qed.

Lemma map_rewriteDynamic_without_dots (l : list MitosisNode) :
  existsb hasDynamic l = false -> map rewriteDynamic l = l.
Proof.
  induction l as [|x l IH]; simpl; [reflexivity|].
  rewrite orb_false_iff. intros [Hx Hl].
  now rewrite rewriteDynamic_without_dots, IH.
Qed.

(** A component in which the walk meets no dotted name is left as it is. *)
Lemma rewriteDynamicComponent_without_dots (json : Component.t) :
  hasDynamicComponent json = false -> rewriteDynamicComponent json = json.
Proof.
  induction json as [n c g s m u subs r Hsubs] using Component_nested_ind.
  cbn [hasDynamicComponent rewriteDynamicComponent Component.name Component.children
    Component.context_get Component.context_set Component.hooks_onMount
    Component.hooks_onUpdate Component.subComponents Component.rest].
  rewrite orb_false_iff. intros [Hc Hs].
  rewrite map_rewriteDynamic_without_dots by exact Hc. f_equal.
  induction Hsubs as [|x subs Hx _ IH]; simpl in *; [reflexivity|].
  apply orb_false_iff in Hs. destruct Hs as [H1 H2]. now rewrite Hx, IH.
Qed.

(** After the walk no name in the component has a dot. *)
Lemma hasDynamicComponent_rewritten (json : Component.t) :
  hasDynamicComponent (rewriteDynamicComponent json) = false.
Proof.
  induction json as [n c g s m u subs r Hsubs] using Component_nested_ind.
  rewrite hasDynamicComponent_unfold, rewriteDynamicComponent_children,
    rewriteDynamicComponent_subComponents.
  cbn [Component.children Component.subComponents].
  rewrite existsb_hasDynamic_rewritten. simpl.
  induction Hsubs as [|x subs Hx _ IH]; simpl; [reflexivity|]. now rewrite Hx, IH.
Qed.

(** Where the walk over a component meets a dotted name, there is a node
    with one. *)
Lemma hasDynamicComponent_position (json : Component.t) :
  hasDynamicComponent json = true ->
  exists subs i path node,
    anyNodeAt subs i path json = Some node /\ JS.includes (name node) "." = true.
Proof.
  induction json as [n c g s m u subs r Hsubs] using Component_nested_ind.
  rewrite hasDynamicComponent_unfold. cbn [Component.children Component.subComponents].
  rewrite orb_true_iff. intros [H|H].
  - apply existsb_exists in H. destruct H as (root & Hin & Hroot).
    apply In_nth_error in Hin. destruct Hin as (i & Hi).
    destruct (hasDynamic_position root Hroot) as (path & node & Hat & Hdot).
    exists [], i, path, node. unfold anyNodeAt, componentNodeAt. simpl.
    rewrite Hi. auto.
  - apply existsb_exists in H. destruct H as (x & Hin & Hx).
    apply In_nth_error in Hin. destruct Hin as (k & Hk).
    rewrite Forall_forall in Hsubs.
    destruct (Hsubs x (nth_error_In _ _ Hk) Hx) as (subs' & i & path & node & Hat & Hdot).
    exists (k :: subs'), i, path, node. unfold anyNodeAt in *. simpl. rewrite Hk. auto.
Qed.

Lemma hasDynamicComponent_anyNodeAt subs (json : Component.t) i path node :
  anyNodeAt subs i path json = Some node ->
  JS.includes (name node) "." = true ->
  hasDynamicComponent json = true.
Proof.
  revert json. induction subs as [|k subs IH]; intros json Hat Hdot;
    rewrite hasDynamicComponent_unfold; unfold anyNodeAt in Hat; simpl in Hat.
  - unfold componentNodeAt in Hat.
    destruct (nth_error (Component.children json) i) as [root|] eqn:Hi; [|discriminate].
    assert (existsb hasDynamic (Component.children json) = true) as ->; [|reflexivity].
    apply existsb_exists. exists root. split; [eapply nth_error_In; eauto|].
    eapply hasDynamic_nodeAt; eauto.
  - destruct (nth_error (Component.subComponents json) k) as [c|] eqn:Hk; [|discriminate].
    assert (existsb hasDynamicComponent (Component.subComponents json) = true) as ->;
      [|apply orb_true_r].
    apply existsb_exists. exists c. split; [eapply nth_error_In; eauto|].
    apply IH; [exact Hat|exact Hdot].
Qed.

(** X1.  [processDynamicComponents] returns [true] exactly when some node
    of the component, in its children or in those of a sub-component, has a
    name with a dot; when it returns [false] it has left the component as it
    was. *)
Theorem dynamic_flag_exact (json : Component.t) :
  (fst (processDynamicComponents json) = true
   <-> exists subs i path node,
         anyNodeAt subs i path json = Some node
         /\ JS.includes (name node) "." = true)
  /\ (fst (processDynamicComponents json) = false
      -> snd (processDynamicComponents json) = json).
Proof.
  rewrite processDynamicComponents_split. cbn [fst snd]. split; [split|].
  - apply hasDynamicComponent_position.
  - intros (subs & i & path & node & Hat & Hdot).
    eapply hasDynamicComponent_anyNodeAt; eauto.
  - apply rewriteDynamicComponent_without_dots.
Qed.

Lemma dynamic_flag_exact_witness :
  fst (processDynamicComponents Ex.themed) = false
  /\ snd (processDynamicComponents Ex.themed) = Ex.themed.
Proof.
  split; [reflexivity|].
  exact (proj2 (dynamic_flag_exact Ex.themed) eq_refl).
Defined.

(** X2.  A second run of [processDynamicComponents] finds nothing and
    changes nothing: after the first run no name has a dot, in the
    component or in a sub-component. *)
Theorem dynamic_pass_idempotent (json : Component.t) :
  processDynamicComponents (snd (processDynamicComponents json))
  = (false, snd (processDynamicComponents json)).
Proof.
  rewrite !processDynamicComponents_split. cbn [fst snd].
  rewrite hasDynamicComponent_rewritten.
  now rewrite rewriteDynamicComponent_without_dots
    by apply hasDynamicComponent_rewritten.
Qed.


(** ** Wrapping in providers *)

Section ProviderFacts.

Variable emptyNode : MitosisNode.
Variable stringifyContextValue : string -> string.

Let wrapOne : Component.t -> string * ContextSet.t -> Component.t :=
  fun json kv => addProviderComponent emptyNode stringifyContextValue json (snd kv).

Lemma wrap_loop_unwrap (entries : Dict.t ContextSet.t) :
  forall (json : Component.t) (k : nat) (inner : list MitosisNode),
    unwrap k (Component.children json) = Some inner ->
    unwrap (length entries + k) (Component.children (fold_left wrapOne entries json))
    = Some inner.
Proof.
  induction entries as [|kv entries IH]; intros json k inner H; [exact H|].
  cbn [fold_left length].
  replace (S (length entries) + k) with (length entries + S k) by lia.
  apply IH. exact H.
Qed.



(** With a context set, [addProviderComponents] leaves one root. *)
Lemma addProviderComponents_one_root (json : Component.t) :
  Component.context_set json <> [] ->
  exists root,
    Component.children (addProviderComponents emptyNode stringifyContextValue json)
    = [root].
Proof.
  unfold addProviderComponents.
  destruct (Component.context_set json) as [|kv entries] using rev_ind; [congruence|].
  intros _. rewrite fold_left_app. simpl. eexists. reflexivity.
Qed.

(** X5.  The root that [addProviderComponents] leaves is the provider of
    the context set last: it is named [<name>.Provider], it has a [value]
    binding with the stringified value when the entry has a value and the
    bindings of a fresh node when it has none, and below it are the
    providers of the entries before. *)
Theorem last_context_is_outermost
    (json : Component.t) (entries : Dict.t ContextSet.t) (key : string)
    (entry : ContextSet.t) :
  Component.context_set json = (entries ++ [(key, entry)])%list ->
  exists inner : list MitosisNode,
    Component.children (addProviderComponents emptyNode stringifyContextValue json)
    = [ mkNode (ContextSet.name entry ++ ".Provider")
               (properties emptyNode)
               (match ContextSet.value entry with
                | Some value =>
                    [("value", mkBinding (stringifyContextValue value) None None)]
                | None => bindings emptyNode
                end)
               inner (meta_else emptyNode) (scope emptyNode) ]
    /\ unwrap (length entries) inner = Some (Component.children json).
Proof.
  intros Hset. unfold addProviderComponents. rewrite Hset, fold_left_app. simpl.
  eexists. split.
  - unfold createMitosisNode. destruct (ContextSet.value entry); reflexivity.
  - rewrite <- (Nat.add_0_r (length _)).
    now apply (wrap_loop_unwrap entries json 0).
Qed.

End ProviderFacts.

Lemma last_context_is_outermost_witness :
  exists inner : list MitosisNode,
    Component.children
      (addProviderComponents Reference.emptyNode (fun v => v) Ex2.twoContexts)
    = [ mkNode "UserContext.Provider" [] [] inner None (mkScope None None) ]
    /\ unwrap 1 inner = Some (Component.children Ex2.twoContexts).
Proof.
  exact (last_context_is_outermost Reference.emptyNode (fun v => v) Ex2.twoContexts
           [("theme", ContextSet.mk "ThemeContext" (Some "{ dark: true }"))]
           "user" (ContextSet.mk "UserContext" None) eq_refl).
Defined.

(** ** Imports and hooks *)

(** X6.  The imported symbols are exactly: [useContext] when the component
    has context, [Show] and [For] when these components are used, [onMount]
    when the mount hook has code, [on] and [createEffect] when there is an
    [onUpdate] hook, and the symbols the state module asks for. *)
Theorem imports_membership
    (json : Component.t) (componentHasContext hasShowComponent hasForComponent : bool)
    (state : option State.t) (symbol : string) :
  In symbol
     (solidJSImports json componentHasContext hasShowComponent hasForComponent state)
  <-> (componentHasContext = true /\ symbol = "useContext")
      \/ (hasShowComponent = true /\ symbol = "Show")
      \/ (hasForComponent = true /\ symbol = "For")
      \/ (onMountCode json <> None /\ symbol = "onMount")
      \/ (hasOnUpdate json = true /\ (symbol = "on" \/ symbol = "createEffect"))
      \/ In symbol (stateImports state).
Proof.
  unfold solidJSImports. rewrite In_uniq. apply In_importCandidates.
Qed.

(** X7.  What the hooks write is imported: when the call of [onMount] is
    written, [onMount] is among the imported symbols, and when anything is
    written for [hooks.onUpdate], [on] and [createEffect] are. *)
Theorem hooks_written_are_imported
    (json : Component.t) (componentHasContext hasShowComponent hasForComponent : bool)
    (state : option State.t) :
  let imports :=
    solidJSImports json componentHasContext hasShowComponent hasForComponent state in
  (onMountToSolid json <> EmptyString -> In "onMount" imports)
  /\ (onUpdateToSolid json <> EmptyString ->
      In "on" imports /\ In "createEffect" imports).
Proof.
  intros imports. subst imports. unfold solidJSImports. split.
  - intros H. apply In_uniq, In_importCandidates. right; right; right; left.
    split; [|reflexivity]. unfold onMountToSolid in H.
    destruct (onMountCode json); [discriminate|congruence].
  - intros H.
    assert (Hup : hasOnUpdate json = true).
    { unfold onUpdateToSolid, hasOnUpdate in *.
      destruct (Component.hooks_onUpdate json) as [[|h l]|]; try reflexivity;
        exfalso; apply H; reflexivity. }
    split; apply In_uniq, In_importCandidates; right; right; right; right; left; auto.
Qed.

Lemma hooks_written_are_imported_witness :
  In "on" (solidJSImports Ex.mixedDeps false false false None)
  /\ In "createEffect" (solidJSImports Ex.mixedDeps false false false None).
Proof.
  apply (proj2 (hooks_written_are_imported Ex.mixedDeps false false false None)).
  discriminate.
Defined.

Lemma append_cancel_l (p a b : string) : p ++ a = p ++ b -> a = b.
Proof.
  induction p as [|c p IH]; simpl; [trivial|]. intros [= H]. auto.
Qed.

Lemma allDigits_string_of_uint (d : Decimal.uint) :
  allDigits (NilEmpty.string_of_uint d) = true.
Proof. induction d; simpl; auto. Qed.

(** Two texts that go on with [(] after digits and are equal have the same
    digits. *)
Lemma digits_then_paren (a b x y : string) :
  allDigits a = true -> allDigits b = true ->
  a ++ "(" ++ x = b ++ "(" ++ y -> a = b.
Proof.
  revert b. induction a as [|c a IH]; intros [|c' b] Ha Hb H; simpl in *.
  - reflexivity.
  - injection H as <- _. discriminate Hb.
  - injection H as -> _. discriminate Ha.
  - injection H as <- H.
    apply andb_true_iff in Ha. apply andb_true_iff in Hb.
    f_equal. apply IH; tauto.
Qed.

Lemma showNat_injective (i j : nat) : JS.showNat i = JS.showNat j -> i = j.
Proof.
  unfold JS.showNat. intros H.
  assert (Hu : Some (Nat.to_uint i) = Some (Nat.to_uint j)).
  { rewrite <- !NilEmpty.usu. now rewrite H. }
  injection Hu as Hu.
  rewrite <- (DecimalNat.Unsigned.of_to i), <- (DecimalNat.Unsigned.of_to j).
  now rewrite Hu.
Qed.

(** X8.  The effects registered for two different places of
    [hooks.onUpdate] differ: the name of the function, [onUpdateFn_] and the
    place in decimal, is not that of another place. *)
Theorem effect_functions_distinct (hook hook' : Hook.t) (i j : nat) :
  onUpdateHookToSolid hook i <> EmptyString ->
  onUpdateHookToSolid hook i = onUpdateHookToSolid hook' j ->
  i = j.
Proof.
  unfold onUpdateHookToSolid. intros Hwritten H.
  destruct (Hook.deps hook) as [d|]; [|contradiction].
  destruct (JS.truthy d); [|contradiction].
  destruct (Hook.deps hook') as [d'|]; [|discriminate H].
  destruct (JS.truthy d'); [|discriminate H].
  apply (append_cancel_l (JS.nl ++ "                    function onUpdateFn_")) in H.
  apply showNat_injective.
  eapply digits_then_paren; [| |exact H]; apply allDigits_string_of_uint.
Qed.

Lemma effect_functions_distinct_witness :
  onUpdateHookToSolid (Hook.mk "a()" (Some "[x]")) 3 <> EmptyString /\ 3 = 3.
Proof.
  split; [discriminate|].
  apply (effect_functions_distinct (Hook.mk "a()" (Some "[x]"))
           (Hook.mk "a()" (Some "[x]")) 3 3); [discriminate|reflexivity].
Defined.

(** ** What class composition leaves of the node *)

Lemma filter_all {A : Type} (f : A -> bool) (l : list A) :
  (forall x, In x l -> f x = true) -> filter f l = l.
Proof.
  induction l as [|x l IH]; simpl; intros H; [reflexivity|].
  rewrite (H x) by auto. f_equal. apply IH. auto.
Qed.

Lemma keptProperties_cases (json : MitosisNode) :
  keptProperties json
  = let p := properties json in
    let p :=
      match truthyProperty "class" json with
      | Some _ => Dict.delete "class" p
      | None => p
      end in
    match truthyProperty "className" json with
    | Some _ => Dict.delete "className" p
    | None => p
    end.
Proof.
  unfold keptProperties, staticClassKey, Dict.delete. cbv zeta.
  generalize (properties json) as l.
  destruct (truthyProperty "class" json) as [a|] eqn:Ha,
           (truthyProperty "className" json) as [b|] eqn:Hb;
    intros l; induction l as [|[k v] l IH]; simpl; try reflexivity;
    destruct (String.eqb_spec k "class") as [->|Hk];
    rewrite ?Ha; simpl; rewrite ?IH; try reflexivity;
    destruct (String.eqb_spec k "className") as [->|Hk'];
    rewrite ?Hb; simpl; rewrite ?IH; reflexivity.
Qed.

Lemma collectClasses_properties (json : MitosisNode) (st : StylesType) :
  properties (snd (collectClasses json st)) = keptProperties json.
Proof.
  rewrite keptProperties_cases. cbv zeta.
  unfold collectClasses.
  destruct (truthyProperty "class" json) as [a|] eqn:Ha.
  - rewrite truthyProperty_delete_other by discriminate.
    destruct (truthyProperty "className" json) as [b|]; simpl;
      destruct (Dict.get "class" (bindings json)); simpl;
      destruct (Dict.get "className" _); reflexivity.
  - destruct (truthyProperty "className" json) as [b|]; simpl;
      destruct (Dict.get "class" (bindings json)); simpl;
      destruct (Dict.get "className" _); reflexivity.
Qed.

Lemma collectClasses_rest (json : MitosisNode) (st : StylesType) :
  children (snd (collectClasses json st)) = children json
  /\ meta_else (snd (collectClasses json st)) = meta_else json
  /\ scope (snd (collectClasses json st)) = scope json.
Proof.
  unfold collectClasses, truthyProperty. do 4 next_source; repeat split.
Qed.

(** X9.  Class composition deletes from the properties of the node the
    [class] and the [className] that are not empty, and nothing else: every
    other property, an empty [class] or [className] among them, stays in its
    place, and so do the name, the children, [meta.else] and the scope. *)
Theorem class_composition_consumes_properties (json : MitosisNode) (st : StylesType) :
  let json' := snd (collectClassString json st) in
  properties json' = keptProperties json
  /\ (forall key,
        Dict.get key (properties json')
        = if staticClassKey json key then None else Dict.get key (properties json))
  /\ name json' = name json
  /\ children json' = children json
  /\ meta_else json' = meta_else json
  /\ scope json' = scope json.
Proof.
  intros json'. subst json'. rewrite collectClassString_node.
  rewrite collectClasses_properties, collectClasses_name.
  destruct (collectClasses_rest json st) as (Hc & He & Hs).
  repeat split; try assumption.
  intros key. unfold keptProperties. apply get_filter_keys.
Qed.

(** ** The opening tag *)

Lemma join_empty_cons (x : string) (l : list string) :
  JS.join EmptyString (x :: l) = x ++ JS.join EmptyString l.
Proof.
  unfold JS.join. destruct l as [|y l]; simpl; [now rewrite append_empty_r|reflexivity].
Qed.

(** A loop that adds a piece of text for each element adds their join. *)
Lemma fold_append_join {A : Type} (f : A -> string) (l : list A) (str : string) :
  fold_left (fun str x => str ++ f x) l str = str ++ JS.join EmptyString (map f l).
Proof.
  revert str. induction l as [|x l IH]; intros str.
  - simpl. now rewrite append_empty_r.
  - cbn [fold_left map]. rewrite IH, join_empty_cons. apply append_assoc.
Qed.

(** The opening tag, with the loops run over what class composition
    leaves. *)
Lemma openTagToSolid_kept
    (kebabCaseKeys : string -> string) (options : ToSolidOptions)
    (json : MitosisNode) (fallback : option string) :
  openTagToSolid kebabCaseKeys options json fallback
  = bindingsToSolid kebabCaseKeys (name json)
      (propertiesToSolid
         (((if name json =? "Fragment" then "<" else "<" ++ name json ++ " ")
           ++ match fallback with
              | Some f => "fallback={" ++ f ++ "}"
              | None => EmptyString
              end)
          ++ fst (classToSolid options json))
         (keptProperties json))
      (keptBindings (bindings json)).
Proof.
  unfold openTagToSolid.
  pose proof (classToSolid_node options json) as Hnode.
  destruct (classToSolid options json) as [classAttr json']. simpl in Hnode. subst json'.
  rewrite collectClasses_name, collectClasses_bindings, collectClasses_properties.
  cbn [fst]. do 2 f_equal.
  destruct (name json =? "Fragment"), fallback; simpl;
    rewrite ?append_empty_r, ?append_assoc; reflexivity.
Qed.

(** X10.  The opening tag of an element is, in this order: [<] and the
    name (only [<] for a [Fragment]); the [fallback] of a [Show]; the [class]
    attribute of class composition; one attribute for each property that
    class composition leaves, in their order; one piece for each binding that
    it leaves, in their order. *)
Theorem opening_tag_anatomy
    (kebabCaseKeys : string -> string) (options : ToSolidOptions)
    (json : MitosisNode) (fallback : option string) :
  openTagToSolid kebabCaseKeys options json fallback
  = (if name json =? "Fragment" then "<" else "<" ++ name json ++ " ")
    ++ match fallback with
       | Some f => "fallback={" ++ f ++ "}"
       | None => EmptyString
       end
    ++ fst (classToSolid options json)
    ++ JS.join EmptyString
         (map (fun kv => " " ++ fst kv ++ "=" ++ JS.dq ++ snd kv ++ JS.dq ++ " ")
              (keptProperties json))
    ++ JS.join EmptyString
         (map (fun kv => bindingToSolid kebabCaseKeys (name json) (fst kv) (snd kv))
              (keptBindings (bindings json))).
Proof.
  rewrite openTagToSolid_kept.
  unfold bindingsToSolid, propertiesToSolid.
  rewrite (fold_append_join
             (fun kv => bindingToSolid kebabCaseKeys (name json) (fst kv) (snd kv))).
  rewrite (fold_append_join (fun kv => propertyToSolid (fst kv) (snd kv))).
  cbn [fst]. unfold propertyToSolid.
  destruct (name json =? "Fragment"), fallback;
    repeat first [rewrite append_assoc | progress simpl]; reflexivity.
Qed.

(** ** The shape of a rendering *)

Section BlockFacts.

Variable checkIsForNode : MitosisNode -> bool.
Variable filterEmptyTextNodes : MitosisNode -> bool.
Variable selfClosingTags : string -> bool.
Variable options : ToSolidOptions.

(** [blockToSolid], one level unfolded, with the rendering of the children
    as a [map] over a [filter]. *)
Lemma blockToSolid_unfold (kebabCaseKeys : string -> string) (json : MitosisNode) :
  let render :=
    blockToSolid checkIsForNode filterEmptyTextNodes selfClosingTags kebabCaseKeys options in
  let rendered := map render (filter filterEmptyTextNodes (children json)) in
  render json
  = match truthyProperty "_text" json with
    | Some text => text
    | None =>
      match truthyBindingCode "_text" json with
      | Some c => "{" ++ c ++ "}"
      | None =>
        if checkIsForNode json then forToSolid json rendered
        else
          let fallback :=
            if name json =? "Show" then option_map render (meta_else json) else None in
          let str := openTagToSolid kebabCaseKeys options json fallback in
          if selfClosingTags (name json) then str ++ " />"
          else
            (str ++ ">") ++ JS.join JS.nl rendered
            ++ (if name json =? "Fragment" then "</>" else "</" ++ name json ++ ">")
      end
    end.
Proof.
  intros render rendered. subst render rendered.
  destruct json as [n p b c e s]. cbn [blockToSolid].
  destruct (truthyProperty "_text" _); [reflexivity|].
  destruct (truthyBindingCode "_text" _); [reflexivity|].
  cbn [name children meta_else].
  match goal with
  | |- context [forToSolid _ (?F c)] =>
      assert (Hkids : F c
                      = map (blockToSolid checkIsForNode filterEmptyTextNodes
                                          selfClosingTags kebabCaseKeys options)
                            (filter filterEmptyTextNodes c))
  end.
  { induction c as [|x c IH]; simpl; [reflexivity|].
    destruct (filterEmptyTextNodes x); simpl; now rewrite IH. }
  rewrite Hkids.
  destruct (checkIsForNode _); [reflexivity|].
  destruct (selfClosingTags n); [destruct (n =? "Show"), e; reflexivity|].
  destruct (n =? "Fragment"); rewrite !append_assoc;
    destruct (n =? "Show"), e; reflexivity.
Qed.

(** The [class] attribute depends on the sources only. *)
Lemma classToSolid_same_sources (json json' : MitosisNode) :
  staticSources json = staticSources json' ->
  dynamicSources (stylesType options) json = dynamicSources (stylesType options) json' ->
  fst (classToSolid options json) = fst (classToSolid options json').
Proof.
  intros Hs Hd. unfold classToSolid, collectClassString.
  pose proof (collectClasses_sources json (stylesType options)) as H.
  pose proof (collectClasses_sources json' (stylesType options)) as H'.
  destruct (collectClasses json (stylesType options)) as [[s d] j].
  destruct (collectClasses json' (stylesType options)) as [[s' d'] j'].
  simpl in H, H'. rewrite <- Hs, <- Hd in H'.
  injection H as -> ->. injection H' as -> ->.
  destruct (staticSources json), (dynamicSources (stylesType options) json); reflexivity.
Qed.

(** The opening tag does not depend on the children nor, given the
    fallback, on [meta.else]. *)
Lemma openTagToSolid_children kebabCaseKeys n p b c c' e e' s fallback :
  openTagToSolid kebabCaseKeys options (mkNode n p b c e s) fallback
  = openTagToSolid kebabCaseKeys options (mkNode n p b c' e' s) fallback.
Proof.
  rewrite !openTagToSolid_kept.
  rewrite (classToSolid_same_sources (mkNode n p b c e s) (mkNode n p b c' e' s))
    by reflexivity.
  reflexivity.
Qed.

Lemma filter_idempotent {A : Type} (f : A -> bool) (l : list A) :
  filter f (filter f l) = filter f l.
Proof.
  induction l as [|x l IH]; simpl; [reflexivity|].
  destruct (f x) eqn:H; simpl; [rewrite H|]; now rewrite ?IH.
Qed.

(** X11.  An element with a self-closing tag is rendered without its
    children: whatever they are, the text is the same, the opening tag
    closed by [/>]. *)
Theorem self_closing_tag_ignores_children
    (kebabCaseKeys : string -> string) (n : string) (p : Dict.t string)
    (b : Dict.t Binding) (c c' : list MitosisNode) (e : option MitosisNode) (s : Scope) :
  let render :=
    blockToSolid checkIsForNode filterEmptyTextNodes selfClosingTags kebabCaseKeys options in
  truthyProperty "_text" (mkNode n p b c e s) = None ->
  truthyBindingCode "_text" (mkNode n p b c e s) = None ->
  checkIsForNode (mkNode n p b c e s) = false ->
  checkIsForNode (mkNode n p b c' e s) = false ->
  selfClosingTags n = true ->
  render (mkNode n p b c e s) = render (mkNode n p b c' e s)
  /\ exists opening, render (mkNode n p b c e s) = opening ++ " />".
Proof.
  intros render Ht Hb Hfor Hfor' Hself. subst render.
  rewrite !blockToSolid_unfold.
  change (truthyProperty "_text" (mkNode n p b c' e s))
    with (truthyProperty "_text" (mkNode n p b c e s)).
  change (truthyBindingCode "_text" (mkNode n p b c' e s))
    with (truthyBindingCode "_text" (mkNode n p b c e s)).
  rewrite Ht, Hb, Hfor, Hfor'. cbn [name meta_else]. rewrite Hself.
  split; [|eexists; reflexivity].
  f_equal. apply openTagToSolid_children.
Qed.

(** X12.  The children of an element that [filterEmptyTextNodes] rejects
    are not rendered: the element is rendered as it is without them. *)
Theorem rejected_children_are_not_rendered
    (kebabCaseKeys : string -> string) (n : string) (p : Dict.t string)
    (b : Dict.t Binding) (c : list MitosisNode) (e : option MitosisNode) (s : Scope) :
  let render :=
    blockToSolid checkIsForNode filterEmptyTextNodes selfClosingTags kebabCaseKeys options in
  checkIsForNode (mkNode n p b c e s) = false ->
  checkIsForNode (mkNode n p b (filter filterEmptyTextNodes c) e s) = false ->
  render (mkNode n p b c e s)
  = render (mkNode n p b (filter filterEmptyTextNodes c) e s).
Proof.
  intros render Hfor Hfor'. subst render.
  rewrite !blockToSolid_unfold.
  change (truthyProperty "_text" (mkNode n p b (filter filterEmptyTextNodes c) e s))
    with (truthyProperty "_text" (mkNode n p b c e s)).
  change (truthyBindingCode "_text" (mkNode n p b (filter filterEmptyTextNodes c) e s))
    with (truthyBindingCode "_text" (mkNode n p b c e s)).
  rewrite Hfor, Hfor'. cbn [name meta_else children].
  rewrite filter_idempotent.
  rewrite (openTagToSolid_children kebabCaseKeys n p b
             (filter filterEmptyTextNodes c) c e e s).
  reflexivity.
Qed.

(** X13.  [meta.else] is read on a [Show] only: a node with another name
    is rendered the same whatever its [meta.else]. *)
Theorem meta_else_read_on_show_only
    (kebabCaseKeys : string -> string) (n : string) (p : Dict.t string)
    (b : Dict.t Binding) (c : list MitosisNode) (e e' : option MitosisNode) (s : Scope) :
  let render :=
    blockToSolid checkIsForNode filterEmptyTextNodes selfClosingTags kebabCaseKeys options in
  n <> "Show" ->
  checkIsForNode (mkNode n p b c e s) = checkIsForNode (mkNode n p b c e' s) ->
  render (mkNode n p b c e s) = render (mkNode n p b c e' s).
Proof.
  intros render Hn Hfor. subst render.
  rewrite !blockToSolid_unfold.
  change (truthyProperty "_text" (mkNode n p b c e' s))
    with (truthyProperty "_text" (mkNode n p b c e s)).
  change (truthyBindingCode "_text" (mkNode n p b c e' s))
    with (truthyBindingCode "_text" (mkNode n p b c e s)).
  rewrite <- Hfor. cbn [name meta_else children].
  apply String.eqb_neq in Hn. rewrite Hn.
  rewrite (openTagToSolid_children kebabCaseKeys n p b c c e' e s).
  reflexivity.
Qed.

(** X14.  A [Show] with a [meta.else] is rendered with the rendering of
    that alternative as its [fallback], which is the first attribute. *)
Theorem show_writes_fallback_first
    (kebabCaseKeys : string -> string) (json alternative : MitosisNode) :
  let render :=
    blockToSolid checkIsForNode filterEmptyTextNodes selfClosingTags kebabCaseKeys options in
  truthyProperty "_text" json = None ->
  truthyBindingCode "_text" json = None ->
  checkIsForNode json = false ->
  name json = "Show" ->
  meta_else json = Some alternative ->
  exists rest,
    render json = "<Show fallback={" ++ render alternative ++ "}" ++ rest.
Proof.
  intros render Ht Hb Hfor Hn He. subst render.
  rewrite blockToSolid_unfold, Ht, Hb, Hfor. cbv zeta.
  rewrite openTagToSolid_kept, Hn, He. cbn [String.eqb Ascii.eqb Bool.eqb option_map].
  unfold bindingsToSolid, propertiesToSolid.
  rewrite (fold_append_join
             (fun kv => bindingToSolid kebabCaseKeys "Show" (fst kv) (snd kv))).
  rewrite (fold_append_join (fun kv => propertyToSolid (fst kv) (snd kv))).
  destruct (selfClosingTags "Show");
    repeat first [rewrite append_assoc | progress simpl]; eexists; reflexivity.
Qed.

Lemma bindingToSolid_not_style (k1 k2 : string -> string) tag key binding :
  (key =? "style") = false ->
  bindingToSolid k1 tag key binding = bindingToSolid k2 tag key binding.
Proof. intros H. unfold bindingToSolid. now rewrite H. Qed.

Lemma openTagToSolid_not_style (k1 k2 : string -> string) json fallback :
  existsb (fun kv => fst kv =? "style") (bindings json) = false ->
  openTagToSolid k1 options json fallback = openTagToSolid k2 options json fallback.
Proof.
  intros H. rewrite !openTagToSolid_kept. unfold bindingsToSolid.
  rewrite (fold_append_join
             (fun kv => bindingToSolid k1 (name json) (fst kv) (snd kv))).
  rewrite (fold_append_join
             (fun kv => bindingToSolid k2 (name json) (fst kv) (snd kv))).
  do 2 f_equal.
  apply map_ext_in. intros [key binding] Hin. apply bindingToSolid_not_style. simpl.
  unfold keptBindings in Hin. apply filter_In in Hin. destruct Hin as [Hin _].
  destruct (key =? "style") eqn:Hkey; [|reflexivity].
  assert (Hex : existsb (fun kv => fst kv =? "style") (bindings json) = true).
  { apply existsb_exists. exists (key, binding). auto. }
  congruence.
Qed.

(** X15.  The rewriting of keys to kebab-case is applied to [style]
    bindings only: a tree without a binding under [style] is rendered the
    same whatever that rewriting does. *)
Theorem key_casing_for_style_only (k1 k2 : string -> string) (json : MitosisNode) :
  hasStyleBinding json = false ->
  blockToSolid checkIsForNode filterEmptyTextNodes selfClosingTags k1 options json
  = blockToSolid checkIsForNode filterEmptyTextNodes selfClosingTags k2 options json.
Proof.
  induction json as [n p b c e s Hc He] using MitosisNode_nested_ind.
  cbn [hasStyleBinding bindings children meta_else].
  rewrite !orb_false_iff. intros [[Hb Hkids] Helse].
  rewrite !blockToSolid_unfold. cbv zeta. cbn [children meta_else name].
  assert (Hrendered :
            map (blockToSolid checkIsForNode filterEmptyTextNodes selfClosingTags k1 options)
                (filter filterEmptyTextNodes c)
            = map (blockToSolid checkIsForNode filterEmptyTextNodes selfClosingTags k2
                                options)
                  (filter filterEmptyTextNodes c)).
  { apply map_ext_in. intros x Hx. apply filter_In in Hx. destruct Hx as [Hx _].
    rewrite Forall_forall in Hc. apply (Hc x Hx).
    destruct (hasStyleBinding x) eqn:Hs; [|reflexivity].
    assert (existsb hasStyleBinding c = true) by (apply existsb_exists; eauto).
    congruence. }
  assert (Hfallback :
            option_map (blockToSolid checkIsForNode filterEmptyTextNodes selfClosingTags
                                     k1 options) e
            = option_map (blockToSolid checkIsForNode filterEmptyTextNodes selfClosingTags
                                       k2 options) e).
  { destruct e as [x|]; [|reflexivity]. simpl. f_equal. now apply He. }
  rewrite Hrendered, Hfallback.
  rewrite (openTagToSolid_not_style k1 k2 (mkNode n p b c e s)) by exact Hb.
  reflexivity.
Qed.

End BlockFacts.

Lemma self_closing_tag_ignores_children_witness :
  Ex.render (Ex2.img [Ex2.hello]) = Ex.render (Ex2.img [])
  /\ exists opening, Ex.render (Ex2.img [Ex2.hello]) = opening ++ " />".
Proof.
  exact (self_closing_tag_ignores_children
           Reference.checkIsForNode Reference.filterEmptyTextNodes
           Reference.selfClosingTags DEFAULT_OPTIONS (fun c => c)
           "img" [("src", "a.png")] [] [Ex2.hello] [] None (mkScope None None)
           eq_refl eq_refl eq_refl eq_refl eq_refl).
Defined.

Lemma rejected_children_are_not_rendered_witness :
  Ex.render (Ex.node "div" [] [] [Ex2.blank; Ex2.hello])
  = Ex.render (Ex.node "div" [] [] [Ex2.hello]).
Proof.
  exact (rejected_children_are_not_rendered
           Reference.checkIsForNode Reference.filterEmptyTextNodes
           Reference.selfClosingTags DEFAULT_OPTIONS (fun c => c)
           "div" [] [] [Ex2.blank; Ex2.hello] None (mkScope None None)
           eq_refl eq_refl).
Defined.

Lemma meta_else_read_on_show_only_witness :
  Ex.render (Ex2.show (Some Ex2.hello) "div") = Ex.render (Ex2.show None "div").
Proof.
  apply (meta_else_read_on_show_only
           Reference.checkIsForNode Reference.filterEmptyTextNodes
           Reference.selfClosingTags DEFAULT_OPTIONS (fun c => c)
           "div" [] [("when", Ex.bind "ok")] [Ex2.hello] (Some Ex2.hello) None
           (mkScope None None)).
  - discriminate.
  - reflexivity.
Defined.

Lemma show_writes_fallback_first_witness :
  exists rest,
    Ex.render (Ex2.show (Some Ex2.hello) "Show")
    = "<Show fallback={" ++ Ex.render Ex2.hello ++ "}" ++ rest.
Proof.
  exact (show_writes_fallback_first
           Reference.checkIsForNode Reference.filterEmptyTextNodes
           Reference.selfClosingTags DEFAULT_OPTIONS (fun c => c)
           (Ex2.show (Some Ex2.hello) "Show") Ex2.hello
           eq_refl eq_refl eq_refl eq_refl eq_refl).
Defined.

Lemma key_casing_for_style_only_witness :
  blockToSolid Reference.checkIsForNode Reference.filterEmptyTextNodes
               Reference.selfClosingTags (fun c => c) DEFAULT_OPTIONS Ex.inputChange
  = blockToSolid Reference.checkIsForNode Reference.filterEmptyTextNodes
                 Reference.selfClosingTags (fun _ => "kebab") DEFAULT_OPTIONS
                 Ex.inputChange.
Proof.
  exact (key_casing_for_style_only
           Reference.checkIsForNode Reference.filterEmptyTextNodes
           Reference.selfClosingTags DEFAULT_OPTIONS (fun c => c) (fun _ => "kebab")
           Ex.inputChange eq_refl).
Defined.

(** ** The generator as a whole *)

Section GeneratorFacts.

Variable filterEmptyTextNodes : MitosisNode -> bool.
Variable runPreJsonPlugins : ToSolidOptions -> Component.t -> option Component.t.
Variable runPostJsonPlugins : ToSolidOptions -> Component.t -> option Component.t.
Variable emptyNode : MitosisNode.
Variable stringifyContextValue : string -> string.
Variable hasCss : Component.t -> bool.
Variable stripMetaProperties : Component.t -> Component.t.

Let prepare :=
  preprocess filterEmptyTextNodes runPreJsonPlugins runPostJsonPlugins emptyNode
             stringifyContextValue hasCss stripMetaProperties.


(** X17.  A component that sets a context has one root, the provider: in
    the [styled-components] mode, when [filterEmptyTextNodes] keeps that
    provider, the root is not put in a fragment, however many children the
    component had. *)
Theorem provider_root_needs_no_fragment
    (options : ToSolidOptions) (component json1 : Component.t) :
  stylesType options = styled_components ->
  runPreJsonPlugins options component = Some json1 ->
  Component.context_set json1 <> [] ->
  (forall root,
     Component.children (addProviderComponents emptyNode stringifyContextValue json1)
     = [root] ->
     filterEmptyTextNodes root = true) ->
  match prepare options component with
  | Some (_, addWrapper, _, _) => addWrapper = false
  | None => True
  end.
Proof.
  intros Hmode Hpre Hset Hkeep. subst prepare. unfold preprocess. rewrite Hpre.
  destruct (runPostJsonPlugins options _) as [json2|]; [|exact I].
  destruct (processDynamicComponents _) as [found json3].
  rewrite Hmode.
  destruct (addProviderComponents_one_root emptyNode stringifyContextValue json1 Hset)
    as (root & Hroot).
  specialize (Hkeep _ Hroot). rewrite Hroot. simpl. rewrite Hkeep. reflexivity.
Qed.

End GeneratorFacts.


Lemma provider_root_needs_no_fragment_witness :
  match preprocess Reference.filterEmptyTextNodes Reference.noPlugins Reference.noPlugins
                   Reference.emptyNode (fun v => v) (fun _ => false) (fun json => json)
                   DEFAULT_OPTIONS Ex2.twoContexts with
  | Some (_, addWrapper, _, _) => addWrapper = false
  | None => True
  end.
Proof.
  apply (provider_root_needs_no_fragment
           Reference.filterEmptyTextNodes Reference.noPlugins Reference.noPlugins
           Reference.emptyNode (fun v => v) (fun _ => false) (fun json => json)
           DEFAULT_OPTIONS Ex2.twoContexts Ex2.twoContexts eq_refl eq_refl).
  - discriminate.
  - intros root H. injection H as <-. reflexivity.
Defined.

(** ** Context consumption *)

(** X18.  [getContextString] writes one statement
    [const <key> = useContext(<name>);] for each entry of [context.get], in
    their order, and nothing without entries. *)
Theorem context_statements_in_order (component : Component.t) :
  getContextString component
  = JS.join EmptyString
      (map (fun kv =>
              JS.nl ++ "      const " ++ fst kv ++ " = useContext("
              ++ ContextGet.name (snd kv) ++ ");" ++ JS.nl ++ "    ")
           (Component.context_get component))
  /\ forall key entry,
       In (key, entry) (Component.context_get component) ->
       emits (getContextString component)
             ("const " ++ key ++ " = useContext(" ++ ContextGet.name entry ++ ");").
Proof.
  assert (Hjoin :
            getContextString component
            = JS.join EmptyString
                (map (fun kv =>
                        JS.nl ++ "      const " ++ fst kv ++ " = useContext("
                        ++ ContextGet.name (snd kv) ++ ");" ++ JS.nl ++ "    ")
                     (Component.context_get component))).
  { unfold getContextString.
    rewrite (fold_append_join
               (fun kv =>
                  JS.nl ++ "      const " ++ fst kv ++ " = useContext("
                  ++ ContextGet.name (snd kv) ++ ");" ++ JS.nl ++ "    ")).
    reflexivity. }
  split; [exact Hjoin|].
  intros key entry Hin. rewrite Hjoin. clear Hjoin.
  induction (Component.context_get component) as [|kv l IH]; [destruct Hin|].
  cbn [map]. rewrite join_empty_cons. destruct Hin as [->|Hin].
  - apply emits_append_l. cbn [fst snd].
    exists (JS.nl ++ "      "), (JS.nl ++ "    ").
    repeat first [rewrite append_assoc | progress simpl]. reflexivity.
  - apply emits_append_r. now apply IH.
Qed.

(** ** [preProcessBlockCode] *)

Lemma set_same {V : Type} (k : string) (v : V) (d : Dict.t V) :
  Dict.get k d = Some v -> Dict.set k v d = d.
Proof.
  induction d as [|[k0 w] d IH]; simpl; [discriminate|].
  destruct (String.eqb_spec k0 k) as [->|Hne].
  - now intros [= ->].
  - intros H. now rewrite IH.
Qed.

Lemma get_app_absent {V : Type} (k : string) (pre d : Dict.t V) :
  ~ In k (keys pre) -> Dict.get k (pre ++ d)%list = Dict.get k d.
Proof.
  induction pre as [|[k0 w] pre IH]; simpl; intros H; [reflexivity|].
  destruct (String.eqb_spec k0 k) as [->|Hne]; [tauto|]. apply IH. tauto.
Qed.

Lemma set_app_absent {V : Type} (k : string) (v : V) (pre d : Dict.t V) :
  ~ In k (keys pre) -> Dict.set k v (pre ++ d)%list = (pre ++ Dict.set k v d)%list.
Proof.
  induction pre as [|[k0 w] pre IH]; simpl; intros H; [reflexivity|].
  destruct (String.eqb_spec k0 k) as [->|Hne]; [tauto|]. rewrite IH; tauto.
Qed.

(** A loop over the keys of a dictionary that puts [g v] for the value [v]
    under each key changes every value by [g], when the keys are distinct. *)
Lemma loop_over_keys {V : Type} (g : V -> V) (step : Dict.t V -> string -> Dict.t V) :
  (forall d key,
     step d key
     = match Dict.get key d with
       | Some v => Dict.set key (g v) d
       | None => d
       end) ->
  forall d pre : Dict.t V,
    NoDup (keys (pre ++ d)%list) ->
    fold_left step (keys d) (pre ++ d)%list
    = (pre ++ map (fun kv => (fst kv, g (snd kv))) d)%list.
Proof.
  intros Hstep. induction d as [|[k v] d IH]; intros pre Hnodup; [reflexivity|].
  cbn [keys map fold_left fst snd].
  assert (Hk : ~ In k (keys pre)).
  { unfold keys in *. rewrite map_app in Hnodup. simpl in Hnodup.
    apply NoDup_remove_2 in Hnodup. rewrite in_app_iff in Hnodup. tauto. }
  rewrite Hstep, get_app_absent by exact Hk. simpl. rewrite String.eqb_refl.
  rewrite set_app_absent by exact Hk. simpl. rewrite String.eqb_refl.
  change (pre ++ (k, g v) :: d)%list with (pre ++ [(k, g v)] ++ d)%list.
  rewrite app_assoc. fold (keys d). rewrite IH.
  - now rewrite <- app_assoc.
  - unfold keys in *. rewrite <- app_assoc. rewrite !map_app in *. exact Hnodup.
Qed.

Section PreProcessFacts.

Variable updateStateCode : ToSolidOptions -> Component.t -> bool -> string -> string.
Variable options : ToSolidOptions.
Variable component : Component.t.

Let pre : MitosisNode -> MitosisNode :=
  preProcessBlockCode updateStateCode options component.

(** [preProcessBlockCode] on a node whose keys are distinct. *)
Lemma preProcessBlockCode_map (json : MitosisNode) :
  NoDup (keys (properties json)) ->
  NoDup (keys (bindings json)) ->
  pre json
  = mkNode (name json)
           (map (fun kv =>
                   (fst kv, rewriteValue (updateStateCode options component false) (snd kv)))
                (properties json))
           (map (fun kv =>
                   (fst kv, rewriteBinding (updateStateCode options component true) (snd kv)))
                (bindings json))
           (children json) (meta_else json) (scope json).
Proof.
  intros Hp Hb. subst pre. unfold preProcessBlockCode. cbv zeta. f_equal.
  - apply (loop_over_keys (rewriteValue (updateStateCode options component false))
             (preProcessProperty updateStateCode options component)
             ltac:(intros d key; unfold preProcessProperty, rewriteValue;
                   destruct (Dict.get key d) as [v|] eqn:Hget; [|reflexivity];
                   destruct (JS.truthy v); [reflexivity|];
                   symmetry; now apply set_same)
             (properties json) []).
    exact Hp.
  - apply (loop_over_keys (rewriteBinding (updateStateCode options component true))
             (preProcessBinding updateStateCode options component)
             ltac:(intros d key; unfold preProcessBinding, rewriteBinding;
                   destruct (Dict.get key d) as [v|] eqn:Hget; [|reflexivity];
                   destruct (JS.truthy (code v)); [reflexivity|];
                   symmetry; now apply set_same)
             (bindings json) []).
    exact Hb.
Qed.

Lemma keys_map_values {V : Type} (g : V -> V) (d : Dict.t V) :
  keys (map (fun kv => (fst kv, g (snd kv))) d) = keys d.
Proof. unfold keys. rewrite map_map. reflexivity. Qed.

(** X19.  On a node with distinct keys, [preProcessBlockCode] rewrites each
    non-empty property value (without setters) and the code of each binding
    that has code (with setters), in place: the keys and their order, the
    empty values, the arguments and the type of every binding, the name, the
    children, [meta.else] and the scope are as they were. *)
Theorem preProcessBlockCode_rewrites_in_place (json : MitosisNode) :
  NoDup (keys (properties json)) ->
  NoDup (keys (bindings json)) ->
  properties (pre json)
  = map (fun kv =>
           (fst kv,
            if JS.truthy (snd kv)
            then updateStateCode options component false (snd kv)
            else snd kv))
        (properties json)
  /\ bindings (pre json)
     = map (fun kv =>
              (fst kv,
               if JS.truthy (code (snd kv))
               then mkBinding (updateStateCode options component true (code (snd kv)))
                              (arguments (snd kv)) (type (snd kv))
               else snd kv))
           (bindings json)
  /\ keys (properties (pre json)) = keys (properties json)
  /\ keys (bindings (pre json)) = keys (bindings json)
  /\ name (pre json) = name json
  /\ children (pre json) = children json
  /\ meta_else (pre json) = meta_else json
  /\ scope (pre json) = scope json.
Proof.
  intros Hp Hb. rewrite (preProcessBlockCode_map json Hp Hb).
  cbn [properties bindings name children meta_else scope].
  rewrite !keys_map_values. repeat split.
Qed.

(** X20.  When the rewriting of code is idempotent, so is
    [preProcessBlockCode] on a node with distinct keys. *)
Theorem preProcessBlockCode_idempotent (json : MitosisNode) :
  (forall updateSetters c,
     updateStateCode options component updateSetters
                     (updateStateCode options component updateSetters c)
     = updateStateCode options component updateSetters c) ->
  NoDup (keys (properties json)) ->
  NoDup (keys (bindings json)) ->
  pre (pre json) = pre json.
Proof.
  intros Hidem Hp Hb.
  rewrite (preProcessBlockCode_map json Hp Hb).
  rewrite preProcessBlockCode_map;
    cbn [properties bindings name children meta_else scope];
    rewrite ?keys_map_values; try assumption.
  f_equal; rewrite map_map; apply map_ext; intros [k v]; cbn [fst snd]; f_equal.
  - unfold rewriteValue. destruct (JS.truthy v) eqn:Hv; [|now rewrite Hv].
    destruct (JS.truthy (updateStateCode options component false v)); [|reflexivity].
    apply Hidem.
  - unfold rewriteBinding. destruct (JS.truthy (code v)) eqn:Hv; [|now rewrite Hv].
    cbn [code arguments type].
    destruct (JS.truthy (updateStateCode options component true (code v)));
      [|reflexivity].
    now rewrite Hidem.
Qed.

End PreProcessFacts.

Lemma preProcessBlockCode_rewrites_in_place_witness :
  properties (preProcessBlockCode Ex2.mark DEFAULT_OPTIONS Ex.bare Ex2.stateful)
  = [("title", "#state.title"); ("hidden", EmptyString)]
  /\ bindings (preProcessBlockCode Ex2.mark DEFAULT_OPTIONS Ex.bare Ex2.stateful)
     = [("onClick", mkBinding "#state.n = 1" (Some ["e"]) None);
        ("value", mkBinding "#state.n" None None)].
Proof.
  assert (Hp : NoDup (keys (properties Ex2.stateful))).
  { repeat constructor; simpl; intuition discriminate. }
  assert (Hb : NoDup (keys (bindings Ex2.stateful))).
  { repeat constructor; simpl; intuition discriminate. }
  destruct (preProcessBlockCode_rewrites_in_place Ex2.mark DEFAULT_OPTIONS Ex.bare
              Ex2.stateful Hp Hb) as (H1 & H2 & _).
  split; [exact H1|exact H2].
Defined.

Lemma preProcessBlockCode_idempotent_witness :
  preProcessBlockCode Ex2.mark DEFAULT_OPTIONS Ex.bare
    (preProcessBlockCode Ex2.mark DEFAULT_OPTIONS Ex.bare Ex2.stateful)
  = preProcessBlockCode Ex2.mark DEFAULT_OPTIONS Ex.bare Ex2.stateful.
Proof.
  apply (preProcessBlockCode_idempotent Ex2.mark DEFAULT_OPTIONS Ex.bare Ex2.stateful).
  - intros updateSetters c. unfold Ex2.mark.
    destruct (String.prefix "#" c) eqn:H; [now rewrite H|].
    cbn [append String.prefix].
    destruct (ascii_dec "#" "#") as [_|Hne]; [|contradiction].
    destruct c; reflexivity.
  - repeat constructor; simpl; intuition discriminate.
  - repeat constructor; simpl; intuition discriminate.
Defined.

Lemma context_statements_in_order_witness :
  emits (getContextString
           (Component.mk "MyComponent" [] [("theme", ContextGet.mk "ThemeContext")] []
                         None None [] "{}"))
        "const theme = useContext(ThemeContext);".
Proof.
  apply (proj2 (context_statements_in_order
                  (Component.mk "MyComponent" [] [("theme", ContextGet.mk "ThemeContext")]
                                [] None None [] "{}"))
               "theme" (ContextGet.mk "ThemeContext")).
  left. reflexivity.
Defined.

(** * The text the generator gives *)

Lemma prefix_append (part s : string) :
  String.prefix part s = true -> exists after, s = part ++ after.
Proof.
  revert s. induction part as [|a part IH]; intros s H.
  - exists s. reflexivity.
  - destruct s as [|b s]; [discriminate|]. simpl in H.
    destruct (ascii_dec a b) as [->|]; [|discriminate].
    destruct (IH s H) as (after & ->). exists after. reflexivity.
Qed.

Lemma includes_emits (text part : string) : JS.includes text part = true -> emits text part.
Proof.
  induction text as [|c text IH]; cbn [JS.includes]; rewrite orb_true_iff; intros [H|H].
  - destruct (prefix_append _ _ H) as (after & ->). exists EmptyString, after. reflexivity.
  - discriminate.
  - destruct (prefix_append _ _ H) as (after & ->). exists EmptyString, after. reflexivity.
  - destruct (IH H) as (before & after & ->). exists (String c before), after. reflexivity.
Qed.

Lemma get_In {V : Type} (k : string) (v : V) (d : Dict.t V) :
  Dict.get k d = Some v -> In (k, v) d.
Proof.
  induction d as [|[k0 w] d IH]; simpl; [discriminate|].
  destruct (String.eqb_spec k0 k) as [->|Hne]; [intros [= ->]; auto|auto].
Qed.

Lemma In_get_distinct {V : Type} (k : string) (v : V) (d : Dict.t V) :
  NoDup (keys d) -> In (k, v) d -> Dict.get k d = Some v.
Proof.
  induction d as [|[k0 w] d IH]; simpl; intros Hnd H; [destruct H|destruct H as [H|H]].
  - injection H as -> ->. now rewrite String.eqb_refl.
  - inversion Hnd as [|? ? Hnot Hd]; subst.
    destruct (String.eqb_spec k0 k) as [->|Hne]; [|now apply IH].
    exfalso. apply Hnot. unfold keys. apply in_map_iff. exists (k, v). auto.
Qed.

Lemma anyNodeAt_rewritten subs (json : Component.t) i path :
  anyNodeAt subs i path (rewriteDynamicComponent json)
  = option_map rewriteDynamic (anyNodeAt subs i path json).
Proof.
  revert json. induction subs as [|k subs IH]; intros json; unfold anyNodeAt; simpl.
  - unfold componentNodeAt. rewrite rewriteDynamicComponent_children, nth_error_map.
    destruct (nth_error (Component.children json) i); simpl;
      [apply nodeAt_rewriteDynamic|reflexivity].
  - rewrite rewriteDynamicComponent_subComponents, nth_error_map.
    destruct (nth_error (Component.subComponents json) k) as [c|]; simpl;
      [apply IH|reflexivity].
Qed.

(** A node anywhere in the component with a dotted name, after the pass. *)
Lemma anyNodeAt_dotted
    (json : Component.t) subs (i : nat) (path : list Step) (node : MitosisNode) :
  anyNodeAt subs i path json = Some node ->
  JS.includes (name node) "." = true ->
  (exists node',
     anyNodeAt subs i path (snd (processDynamicComponents json)) = Some node'
     /\ name node' = "Dynamic"
     /\ Dict.get "component" (bindings node') = Some (mkBinding (name node) None None))
  /\ fst (processDynamicComponents json) = true.
Proof.
  intros Hat Hdot. rewrite processDynamicComponents_split. cbn [fst snd]. split.
  - rewrite anyNodeAt_rewritten, Hat. cbn [option_map].
    exists (rewriteDynamic node). split; [reflexivity|].
    rewrite rewriteDynamic_name, rewriteDynamic_bindings, Hdot.
    split; [reflexivity|apply get_set_same].
  - eapply hasDynamicComponent_anyNodeAt; eauto.
Qed.

(** A dotted name in a sub-component raises the flag, and is rewritten. *)
Lemma dotted_node_in_sub_component :
  fst (processDynamicComponents Ex2.dottedInSub) = true
  /\ option_map name
       (anyNodeAt [0] 0 [] (snd (processDynamicComponents Ex2.dottedInSub)))
     = Some "Dynamic".
Proof. split; reflexivity. Qed.

(** A node named [Dynamic], neither text nor a [For], whose [component]
    binding has code and is no spread: its rendering opens with [<Dynamic ]
    and has the attribute [component={<code>}]. *)
Lemma dynamic_node_text
    (checkIsForNode filterEmptyTextNodes : MitosisNode -> bool)
    (selfClosingTags : string -> bool) (kebabCaseKeys : string -> string)
    (options : ToSolidOptions) (root : MitosisNode) (binding : Binding) :
  name root = "Dynamic" ->
  Dict.get "component" (bindings root) = Some binding ->
  JS.truthy (code binding) = true ->
  type binding = None ->
  truthyProperty "_text" root = None ->
  truthyBindingCode "_text" root = None ->
  checkIsForNode root = false ->
  let text :=
    blockToSolid checkIsForNode filterEmptyTextNodes selfClosingTags kebabCaseKeys
                 options root in
  (exists rest, text = "<Dynamic " ++ rest)
  /\ emits text (" component={" ++ code binding ++ "} ").
Proof.
  intros Hn Hget Hcode Htype Ht Hb Hfor text. subst text. split.
  - rewrite blockToSolid_unfold, Ht, Hb, Hfor. cbv zeta.
    rewrite openTagToSolid_kept, Hn. cbn [String.eqb Ascii.eqb Bool.eqb].
    unfold bindingsToSolid, propertiesToSolid.
    rewrite (fold_append_join
               (fun kv => bindingToSolid kebabCaseKeys "Dynamic" (fst kv) (snd kv))).
    rewrite (fold_append_join (fun kv => propertyToSolid (fst kv) (snd kv))).
    destruct (selfClosingTags "Dynamic");
      repeat first [rewrite append_assoc | progress simpl]; eexists; reflexivity.
  - destruct (blockToSolid_element checkIsForNode filterEmptyTextNodes selfClosingTags
                                   kebabCaseKeys options root Ht Hb Hfor)
      as (fallback & closing & ->).
    apply emits_append_l.
    replace (" component={" ++ code binding ++ "} ")
      with (bindingToSolid kebabCaseKeys (name root) "component" binding).
    + apply openTagToSolid_emits; [now apply get_In|reflexivity].
    + unfold bindingToSolid. rewrite Hcode, Htype. reflexivity.
Qed.

Lemma truthy_provider_name (contextName : string) :
  JS.truthy (contextName ++ ".Provider") = true.
Proof. destruct contextName; reflexivity. Qed.

Section GeneratorClaims.

Variable checkIsForNode : MitosisNode -> bool.
Variable filterEmptyTextNodes : MitosisNode -> bool.
Variable selfClosingTags : string -> bool.
Variable kebabCaseKeys : string -> string.
Variable runPreJsonPlugins : ToSolidOptions -> Component.t -> option Component.t.
Variable runPostJsonPlugins : ToSolidOptions -> Component.t -> option Component.t.
Variable runPreCodePlugins : ToSolidOptions -> string -> option string.
Variable runPostCodePlugins : ToSolidOptions -> string -> option string.
Variable emptyNode : MitosisNode.
Variable stringifyContextValue : string -> string.
Variable hasCss : Component.t -> bool.
Variable stripMetaProperties : Component.t -> Component.t.
Variable collectCss : Component.t -> string * Component.t.
Variable getState : Component.t -> ToSolidOptions -> option State.t.
Variable getComponentsUsed : Component.t -> list string.
Variable hasContext : Component.t -> bool.
Variable renderPreComponent : Component.t -> string.
Variable getRefs : Component.t -> list string.
Variable dedent : list string -> list string -> string.
Variable format : string -> option string.

Let generate : ToSolidOptions -> Component.t -> option string :=
  componentToSolid checkIsForNode filterEmptyTextNodes selfClosingTags kebabCaseKeys
                   runPreJsonPlugins runPostJsonPlugins runPreCodePlugins
                   runPostCodePlugins emptyNode stringifyContextValue hasCss
                   stripMetaProperties collectCss getState getComponentsUsed hasContext
                   renderPreComponent getRefs dedent format.

Let prepare : ToSolidOptions -> Component.t -> option (bool * bool * bool * Component.t) :=
  preprocess filterEmptyTextNodes runPreJsonPlugins runPostJsonPlugins emptyNode
             stringifyContextValue hasCss stripMetaProperties.

Let values : ToSolidOptions -> bool * bool * bool * Component.t -> list string :=
  assembledValues checkIsForNode filterEmptyTextNodes selfClosingTags kebabCaseKeys
                  collectCss getState getComponentsUsed hasContext renderPreComponent
                  getRefs.

Let finish : ToSolidOptions -> string -> option string :=
  finishCode runPreCodePlugins runPostCodePlugins format.

Let wrap : Component.t -> Component.t :=
  addProviderComponents emptyNode stringifyContextValue.

Let render : ToSolidOptions -> MitosisNode -> string :=
  blockToSolid checkIsForNode filterEmptyTextNodes selfClosingTags kebabCaseKeys.

(** [componentToSolid] is the preprocessing, then the template filled with
    the values and given to [dedent], then the last stages. *)
Lemma componentToSolid_assembled (options : ToSolidOptions) (component : Component.t) :
  generate options component
  = match prepare options component with
    | Some r => finish options (dedent templateStrings (values options r))
    | None => None
    end.
Proof.
  subst generate prepare values finish.
  unfold componentToSolid, assembledValues, finishCode, cssStage.
  destruct (preprocess _ _ _ _ _ _ _ options component) as [[[[styles wrapper] found] json]|];
    [|reflexivity].
  destruct (StylesType_eqb (stylesType options) style_tag); [|reflexivity].
  destruct (collectCss json) as [css json']. reflexivity.
Qed.

(** The places of the pieces among the values. *)
Lemma values_places options styles wrapper found json :
  nth_error (values options (styles, wrapper, found, json)) 1
  = Some (dynamicImportLine found)
  /\ nth_error (values options (styles, wrapper, found, json)) 10
     = Some (onUpdateToSolid (snd (cssStage collectCss options json)))
  /\ nth_error (values options (styles, wrapper, found, json)) 12
     = Some (JS.join JS.nl
               (childrenToSolid checkIsForNode filterEmptyTextNodes selfClosingTags
                                kebabCaseKeys options
                                (Component.children (snd (cssStage collectCss options json))))).
Proof.
  subst values. unfold assembledValues.
  destruct (cssStage collectCss options json) as [css json']. repeat split.
Qed.

(** The preprocessing, when the plugins of the first two stages return. *)
Lemma preprocess_returns options component json1 json2 :
  runPreJsonPlugins options component = Some json1 ->
  runPostJsonPlugins options (wrap json1) = Some json2 ->
  exists styles wrapper,
    prepare options component
    = Some (styles, wrapper,
            fst (processDynamicComponents (stripMetaProperties json2)),
            snd (processDynamicComponents (stripMetaProperties json2))).
Proof.
  intros Hpre Hpost. subst prepare wrap. unfold preprocess. rewrite Hpre, Hpost.
  destruct (processDynamicComponents (stripMetaProperties json2)) as [found json'].
  do 2 eexists. reflexivity.
Qed.

(** C6.  Let the plugins of the first two stages return, and let a node of
    the component that enters the dynamic-component pass, in its children
    or in those of a sub-component, have a name with a dot.  The pass leaves
    at the same place a node named [Dynamic] whose [component] binding has
    the former name as its code, and returns [true]; and [componentToSolid]
    gives to [dedent], and then to its last stages, the template with the
    import of [Dynamic] from [solid-js/web] as its second value. *)
Theorem dotted_names_become_dynamic
    (options : ToSolidOptions) (component json1 json2 : Component.t)
    (subs : list nat) (i : nat) (path : list Step) (node : MitosisNode) :
  runPreJsonPlugins options component = Some json1 ->
  runPostJsonPlugins options (wrap json1) = Some json2 ->
  anyNodeAt subs i path (stripMetaProperties json2) = Some node ->
  JS.includes (name node) "." = true ->
  let json' := snd (processDynamicComponents (stripMetaProperties json2)) in
  (exists node',
     anyNodeAt subs i path json' = Some node'
     /\ name node' = "Dynamic"
     /\ Dict.get "component" (bindings node') = Some (mkBinding (name node) None None))
  /\ fst (processDynamicComponents (stripMetaProperties json2)) = true
  /\ exists styles wrapper,
       prepare options component = Some (styles, wrapper, true, json')
       /\ generate options component
          = finish options
              (dedent templateStrings (values options (styles, wrapper, true, json')))
       /\ nth_error (values options (styles, wrapper, true, json')) 1
          = Some "import { Dynamic } from 'solid-js/web';".
Proof.
  intros Hpre Hpost Hat Hdot json'. subst json'.
  destruct (anyNodeAt_dotted _ _ _ _ _ Hat Hdot) as [Hnode Hfound].
  split; [exact Hnode|]. split; [exact Hfound|].
  destruct (preprocess_returns options component json1 json2 Hpre Hpost)
    as (styles & wrapper & Hprepare).
  rewrite Hfound in Hprepare. exists styles, wrapper.
  split; [exact Hprepare|]. split.
  - now rewrite componentToSolid_assembled, Hprepare.
  - apply values_places.
Qed.

(** C7.  When the preprocessing returns, [componentToSolid] gives to
    [dedent], and then to its last stages, the template with, as its
    eleventh value, the join by line feeds of one piece for each entry of
    [hooks.onUpdate] of the component that is rendered, in order.  The piece
    of the entry at position [i] is, when the entry has a non-empty [deps],
    the function [onUpdateFn_<i>] with the code of the hook as body,
    followed by [createEffect(on(() => <deps>, onUpdateFn_<i>))]; it is
    empty when the entry has no [deps]. *)
Theorem onUpdate_registrations_assembled
    (options : ToSolidOptions) (component : Component.t)
    (styles wrapper found : bool) (json : Component.t) (hooks : list Hook.t) :
  prepare options component = Some (styles, wrapper, found, json) ->
  Component.hooks_onUpdate (snd (cssStage collectCss options json)) = Some hooks ->
  exists pieces : list string,
    generate options component
    = finish options
        (dedent templateStrings (values options (styles, wrapper, found, json)))
    /\ nth_error (values options (styles, wrapper, found, json)) 10
       = Some (JS.join JS.nl pieces)
    /\ length pieces = length hooks
    /\ forall (i : nat) (hook : Hook.t),
         nth_error hooks i = Some hook ->
         nth_error pieces i
         = Some (match Hook.deps hook with
                 | Some d =>
                     if JS.truthy d then
                       JS.nl ++ "                    function onUpdateFn_" ++ JS.showNat i
                       ++ "() { " ++ Hook.code hook ++ " };"
                       ++ JS.nl ++ "                    createEffect(on(() => " ++ d
                       ++ ", onUpdateFn_" ++ JS.showNat i ++ "));"
                       ++ JS.nl ++ "                  "
                     else EmptyString
                 | None => EmptyString
                 end).
Proof.
  intros Hprepare Hhooks.
  destruct (onUpdateToSolid_pieces _ hooks Hhooks) as (pieces & Hjoin & Hlen & Hpieces).
  exists pieces. split; [|split; [|split]].
  - now rewrite componentToSolid_assembled, Hprepare.
  - rewrite <- Hjoin. apply values_places.
  - exact Hlen.
  - exact Hpieces.
Qed.

(** C10.  Let the plugins of the first two stages return and the
    component have, after the first, an entry in [context.set].  Wrapping
    leaves one root child, named [<ContextName>.Provider] for the last
    entry.  If the plugins of the second stage and [stripMetaProperties]
    keep the providers in their places and under their names, then every
    provider enters rendering named [Dynamic] with a [component] binding
    whose code is [<ContextName>.Provider]; the flag of the pass is raised;
    [componentToSolid] gives to [dedent], and then to its last stages, the
    template with the import of [Dynamic] from [solid-js/web] as its second
    value and, as its thirteenth, the rendering of the children of the
    component that is rendered, which in the styled-components mode is the
    component the pass leaves; and a provider so renamed that is neither
    text nor a [For] is rendered opening with [<Dynamic ] and with the
    attribute [component={<ContextName>.Provider}]. *)
Theorem providers_emitted_as_dynamic
    (options : ToSolidOptions) (component json1 json2 : Component.t) :
  runPreJsonPlugins options component = Some json1 ->
  Component.context_set json1 <> [] ->
  runPostJsonPlugins options (wrap json1) = Some json2 ->
  providers isProvider (contextNames json1)
            (Component.children (stripMetaProperties json2)) ->
  (exists provider contextName rest,
     contextNames json1 = contextName :: rest
     /\ Component.children (wrap json1) = [provider]
     /\ name provider = contextName ++ ".Provider")
  /\ exists (styles wrapper : bool) (json' : Component.t),
       prepare options component = Some (styles, wrapper, true, json')
       /\ providers isDynamicProvider (contextNames json1) (Component.children json')
       /\ generate options component
          = finish options
              (dedent templateStrings (values options (styles, wrapper, true, json')))
       /\ nth_error (values options (styles, wrapper, true, json')) 1
          = Some "import { Dynamic } from 'solid-js/web';"
       /\ nth_error (values options (styles, wrapper, true, json')) 12
          = Some (JS.join JS.nl
                    (map (render options)
                         (filter filterEmptyTextNodes
                                 (Component.children
                                    (snd (cssStage collectCss options json'))))))
       /\ (stylesType options = styled_components ->
           snd (cssStage collectCss options json') = json')
       /\ forall (contextName : string) (root : MitosisNode),
            isDynamicProvider contextName root ->
            truthyProperty "_text" root = None ->
            truthyBindingCode "_text" root = None ->
            checkIsForNode root = false ->
            (exists rest, render options root = "<Dynamic " ++ rest)
            /\ emits (render options root)
                     (" component={" ++ contextName ++ ".Provider} ").
Proof.
  intros Hpre Hset Hpost Hkept.
  destruct (preprocess_providers filterEmptyTextNodes runPreJsonPlugins
              runPostJsonPlugins emptyNode stringifyContextValue hasCss
              stripMetaProperties options component json1 json2 Hpre Hset Hpost Hkept)
    as (Hwrap & _ & styles & wrapper & found & json' & Hprepare & Hdyn & -> & _).
  split; [exact Hwrap|].
  exists styles, wrapper, json'.
  split; [exact Hprepare|]. split; [exact Hdyn|]. split; [|split; [|split; [|split]]].
  - rewrite componentToSolid_assembled. subst prepare. cbv beta. now rewrite Hprepare.
  - apply values_places.
  - apply values_places.
  - intros Hst. unfold cssStage. now rewrite Hst.
  - intros contextName root [Hn Hget] Ht Hb Hfor.
    pose proof (dynamic_node_text checkIsForNode filterEmptyTextNodes selfClosingTags
                  kebabCaseKeys options root
                  (mkBinding (contextName ++ ".Provider") None None)
                  Hn Hget (truthy_provider_name contextName) eq_refl Ht Hb Hfor)
      as Htext.
    cbv zeta in Htext. cbn [code] in Htext. rewrite append_assoc in Htext.
    exact Htext.
Qed.

End GeneratorClaims.

(** ** The generator on the examples *)

(** C6 on the component whose root [<section>] has the child [<foo.bar>]. *)
Lemma dotted_names_become_dynamic_witness :
  JS.includes "foo.bar" "." = true
  /\ (exists node',
        anyNodeAt [] 0 [child 0] (snd (processDynamicComponents Ex.dotted)) = Some node'
        /\ name node' = "Dynamic"
        /\ Dict.get "component" (bindings node') = Some (mkBinding "foo.bar" None None))
  /\ exists styles wrapper,
       Ex2.generate Reference.noPlugins DEFAULT_OPTIONS Ex.dotted
       = finishCode Reference.noPlugins Reference.noPlugins (fun str => Some str)
           DEFAULT_OPTIONS
           (Ex2.fill templateStrings
              (Ex2.values DEFAULT_OPTIONS
                 (styles, wrapper, true, snd (processDynamicComponents Ex.dotted))))
       /\ nth_error (Ex2.values DEFAULT_OPTIONS
                       (styles, wrapper, true, snd (processDynamicComponents Ex.dotted))) 1
          = Some "import { Dynamic } from 'solid-js/web';".
Proof.
  split; [reflexivity|].
  destruct (dotted_names_become_dynamic
              Reference.checkIsForNode Reference.filterEmptyTextNodes
              Reference.selfClosingTags (fun c => c)
              Reference.noPlugins Reference.noPlugins Reference.noPlugins
              Reference.noPlugins Reference.emptyNode (fun v => v)
              (fun _ => false) (fun json => json) Ex2.noCss Ex2.noState Ex2.rootNames
              (fun _ => false) Ex2.noText Ex2.noRefs Ex2.fill (fun str => Some str)
              DEFAULT_OPTIONS Ex.dotted Ex.dotted Ex.dotted [] 0 [child 0]
              (Ex.node "foo.bar" [("key", "value")] [] [])
              eq_refl eq_refl eq_refl eq_refl)
    as (Hnode & _ & styles & wrapper & _ & Hgen & Himport).
  split; [exact Hnode|].
  exists styles, wrapper. split; [exact Hgen|exact Himport].
Defined.

(** The text for that component has the import and the [Dynamic] element. *)
Lemma dotted_component_text :
  exists text,
    Ex2.generate Reference.noPlugins DEFAULT_OPTIONS Ex.dotted = Some text
    /\ emits text "import { Dynamic } from 'solid-js/web';"
    /\ emits text ("<Dynamic  key=" ++ JS.dq ++ "value" ++ JS.dq
                   ++ "  component={foo.bar} ></Dynamic>").
Proof.
  eexists. split; [vm_compute; reflexivity|].
  split; apply includes_emits; vm_compute; reflexivity.
Qed.

(** C7 on the component with three [onUpdate] hooks, the second without
    [deps]. *)
Lemma onUpdate_registrations_assembled_witness :
  exists pieces : list string,
    Ex2.generate Reference.noPlugins DEFAULT_OPTIONS Ex.mixedDeps
    = finishCode Reference.noPlugins Reference.noPlugins (fun str => Some str)
        DEFAULT_OPTIONS
        (Ex2.fill templateStrings
           (Ex2.values DEFAULT_OPTIONS (false, true, false, Ex.mixedDeps)))
    /\ nth_error (Ex2.values DEFAULT_OPTIONS (false, true, false, Ex.mixedDeps)) 10
       = Some (JS.join JS.nl pieces)
    /\ length pieces = 3%nat
    /\ nth_error pieces 0
       = Some (JS.nl ++ "                    function onUpdateFn_0() { a() };"
               ++ JS.nl ++ "                    createEffect(on(() => [x], onUpdateFn_0));"
               ++ JS.nl ++ "                  ")
    /\ nth_error pieces 1 = Some EmptyString
    /\ nth_error pieces 2
       = Some (JS.nl ++ "                    function onUpdateFn_2() { c() };"
               ++ JS.nl ++ "                    createEffect(on(() => [y, z], onUpdateFn_2));"
               ++ JS.nl ++ "                  ").
Proof.
  destruct (onUpdate_registrations_assembled
              Reference.checkIsForNode Reference.filterEmptyTextNodes
              Reference.selfClosingTags (fun c => c)
              Reference.noPlugins Reference.noPlugins Reference.noPlugins
              Reference.noPlugins Reference.emptyNode (fun v => v)
              (fun _ => false) (fun json => json) Ex2.noCss Ex2.noState Ex2.rootNames
              (fun _ => false) Ex2.noText Ex2.noRefs Ex2.fill (fun str => Some str)
              DEFAULT_OPTIONS Ex.mixedDeps false true false Ex.mixedDeps
              [Hook.mk "a()" (Some "[x]"); Hook.mk "b()" None;
               Hook.mk "c()" (Some "[y, z]")]
              eq_refl eq_refl)
    as (pieces & Hgen & Hvalue & Hlen & Hpieces).
  exists pieces. split; [exact Hgen|]. split; [exact Hvalue|]. split; [exact Hlen|].
  split; [exact (Hpieces 0%nat _ eq_refl)|].
  split; [exact (Hpieces 1%nat _ eq_refl)|exact (Hpieces 2%nat _ eq_refl)].
Defined.

(** The text for that component has the two registrations, and none for
    the hook without [deps]. *)
Lemma mixedDeps_component_text :
  exists text,
    Ex2.generate Reference.noPlugins DEFAULT_OPTIONS Ex.mixedDeps = Some text
    /\ emits text "createEffect(on(() => [x], onUpdateFn_0));"
    /\ emits text "createEffect(on(() => [y, z], onUpdateFn_2));"
    /\ JS.includes text "onUpdateFn_1" = false
    /\ JS.includes text "b()" = false.
Proof.
  eexists. split; [vm_compute; reflexivity|].
  split; [apply includes_emits; vm_compute; reflexivity|].
  split; [apply includes_emits; vm_compute; reflexivity|].
  split; vm_compute; reflexivity.
Qed.

(** C10 on the component that sets [ThemeContext] around a [div], without
    plugins. *)
Lemma providers_emitted_as_dynamic_witness :
  Component.context_set Ex.themed <> []
  /\ exists (styles wrapper : bool) (json' : Component.t),
       Ex2.prepare Reference.noPlugins DEFAULT_OPTIONS Ex.themed
       = Some (styles, wrapper, true, json')
       /\ providers isDynamicProvider ["ThemeContext"] (Component.children json')
       /\ Ex2.generate Reference.noPlugins DEFAULT_OPTIONS Ex.themed
          = finishCode Reference.noPlugins Reference.noPlugins (fun str => Some str)
              DEFAULT_OPTIONS
              (Ex2.fill templateStrings
                 (Ex2.values DEFAULT_OPTIONS (styles, wrapper, true, json')))
       /\ nth_error (Ex2.values DEFAULT_OPTIONS (styles, wrapper, true, json')) 1
          = Some "import { Dynamic } from 'solid-js/web';".
Proof.
  split; [discriminate|].
  destruct (providers_emitted_as_dynamic
              Reference.checkIsForNode Reference.filterEmptyTextNodes
              Reference.selfClosingTags (fun c => c)
              Reference.noPlugins Reference.noPlugins Reference.noPlugins
              Reference.noPlugins Reference.emptyNode (fun v => v)
              (fun _ => false) (fun json => json) Ex2.noCss Ex2.noState Ex2.rootNames
              (fun _ => false) Ex2.noText Ex2.noRefs Ex2.fill (fun str => Some str)
              DEFAULT_OPTIONS Ex.themed Ex.themed
              (addProviderComponents Reference.emptyNode (fun v => v) Ex.themed)
              eq_refl ltac:(discriminate) eq_refl
              ltac:(eexists; split; [reflexivity|split; [reflexivity|exact I]]))
    as (_ & styles & wrapper & json' & Hprepare & Hdyn & Hgen & Himport & _).
  exists styles, wrapper, json'.
  split; [exact Hprepare|]. split; [exact Hdyn|]. split; [exact Hgen|exact Himport].
Defined.

(** The text for that component has the import and the provider as a
    [Dynamic] element. *)
Lemma themed_component_text :
  exists text,
    Ex2.generate Reference.noPlugins DEFAULT_OPTIONS Ex.themed = Some text
    /\ emits text "import { Dynamic } from 'solid-js/web';"
    /\ emits text ("<Dynamic  value={{ dark: true }}  component={ThemeContext.Provider} >"
                   ++ "<div ></div></Dynamic>").
Proof.
  eexists. split; [vm_compute; reflexivity|].
  split; apply includes_emits; vm_compute; reflexivity.
Qed.

(** C10 fails as stated: with a plugin of the second stage that renames
    the root children, a component that sets a context is generated with
    its provider under the name the plugin gave, not through [Dynamic], and
    without the import. *)
Lemma provider_renamed_by_plugin :
  Component.context_set Ex.themed <> []
  /\ (exists json',
        Ex2.prepare Ex2.renameRoots DEFAULT_OPTIONS Ex.themed
        = Some (false, false, false, json')
        /\ map name (Component.children json') = ["Wrapper"]
        /\ nth_error (Ex2.values DEFAULT_OPTIONS (false, false, false, json')) 1
           = Some EmptyString)
  /\ exists text,
       Ex2.generate Ex2.renameRoots DEFAULT_OPTIONS Ex.themed = Some text
       /\ JS.includes text "Dynamic" = false
       /\ JS.includes text "<Wrapper  value={{ dark: true }} ><div ></div></Wrapper>"
          = true.
Proof.
  split; [discriminate|]. split.
  - eexists. split; [vm_compute; reflexivity|]. split; reflexivity.
  - eexists. split; [vm_compute; reflexivity|]. split; vm_compute; reflexivity.
Qed.

(** ** The [class] attribute of an element *)

Lemma keptBindings_keys (b : Dict.t Binding) (key : string) (binding : Binding) :
  In (key, binding) (keptBindings b) ->
  key <> "class" /\ key <> "className" /\ key <> "css".
Proof.
  unfold keptBindings. rewrite filter_In. cbn [fst]. intros [_ H].
  unfold classBindingKey in H.
  destruct (String.eqb_spec key "class"); [discriminate|].
  destruct (String.eqb_spec key "className"); [discriminate|].
  destruct (String.eqb_spec key "css"); [discriminate|auto].
Qed.

Lemma keptProperties_class (json : MitosisNode) (key value : string) :
  NoDup (keys (properties json)) ->
  In (key, value) (keptProperties json) ->
  key = "class" \/ key = "className" ->
  value = EmptyString.
Proof.
  intros Hnd Hin Hkey. unfold keptProperties in Hin.
  apply filter_In in Hin. cbn [fst] in Hin. destruct Hin as [Hin Hstatic].
  apply (In_get_distinct _ _ _ Hnd) in Hin.
  unfold staticClassKey, truthyProperty in Hstatic. rewrite Hin in Hstatic.
  assert (Hk : (key =? "class") || (key =? "className") = true)
    by (destruct Hkey as [-> | ->]; reflexivity).
  rewrite Hk in Hstatic. destruct value; [reflexivity|discriminate].
Qed.

(** C1.  The sources of class composition are: static, the [class] and
    [className] properties that are not the empty string; dynamic, the codes
    of the [class] and [className] bindings, then the [css] helper call when
    it applies.  The value it returns follows the table: static only, the
    quoted join by spaces; dynamic only, the expression in braces; both, in
    braces the quoted static string with a space at its end, [+], the
    dynamic expression; neither, [null].  An element that is neither text
    nor a [For] is rendered as its opening ([<] and the name, the [fallback]
    of a [Show]), then [ class=<value> ] for a value and nothing for [null],
    then one attribute for each property left, then one piece for each
    binding left, then the rest.  No binding left has the key [class],
    [className] or [css]; a property left under [class] or [className], the
    keys being distinct, is the empty string, and it is written with the
    other properties. *)
Theorem class_attribute_rule
    (checkIsForNode filterEmptyTextNodes : MitosisNode -> bool)
    (selfClosingTags : string -> bool) (kebabCaseKeys : string -> string)
    (options : ToSolidOptions) (json : MitosisNode) :
  let render :=
    blockToSolid checkIsForNode filterEmptyTextNodes selfClosingTags kebabCaseKeys
                 options in
  let s := staticSources json in
  let d := dynamicSources (stylesType options) json in
  let value := fst (collectClassString json (stylesType options)) in
  let classAttr :=
    match value with
    | Some v => " class=" ++ v ++ " "
    | None => EmptyString
    end in
  let opening :=
    (if name json =? "Fragment" then "<" else "<" ++ name json ++ " ")
    ++ match (if name json =? "Show" then option_map render (meta_else json) else None)
       with
       | Some f => "fallback={" ++ f ++ "}"
       | None => EmptyString
       end in
  value
  = match s, d with
    | [], [] => None
    | _ :: _, [] => Some (JS.dq ++ JS.join " " s ++ JS.dq)
    | [], _ :: _ => Some ("{" ++ JS.join " + ' ' + " d ++ "}")
    | _ :: _, _ :: _ =>
        Some ("{" ++ JS.dq ++ JS.join " " s ++ " " ++ JS.dq ++ " + "
              ++ JS.join " + ' ' + " d ++ "}")
    end
  /\ (truthyProperty "_text" json = None ->
      truthyBindingCode "_text" json = None ->
      checkIsForNode json = false ->
      exists rest,
        render json
        = opening ++ classAttr
          ++ JS.join EmptyString
               (map (fun kv => " " ++ fst kv ++ "=" ++ JS.dq ++ snd kv ++ JS.dq ++ " ")
                    (keptProperties json))
          ++ JS.join EmptyString
               (map (fun kv => bindingToSolid kebabCaseKeys (name json) (fst kv) (snd kv))
                    (keptBindings (bindings json)))
          ++ rest)
  /\ (forall key binding,
        In (key, binding) (keptBindings (bindings json)) ->
        key <> "class" /\ key <> "className" /\ key <> "css")
  /\ (NoDup (keys (properties json)) ->
      forall key value,
        In (key, value) (keptProperties json) ->
        key = "class" \/ key = "className" ->
        value = EmptyString).
Proof.
  intros render s d value classAttr opening.
  destruct (class_composition_table options json) as [Htable Hattr].
  cbv zeta in Htable, Hattr. fold s d value in Htable. fold value in Hattr.
  split; [exact Htable|]. split; [|split].
  - intros Ht Hb Hfor. subst render.
    rewrite blockToSolid_unfold, Ht, Hb, Hfor. cbv zeta.
    rewrite openTagToSolid_kept, Hattr. fold classAttr.
    unfold bindingsToSolid, propertiesToSolid.
    rewrite (fold_append_join
               (fun kv => bindingToSolid kebabCaseKeys (name json) (fst kv) (snd kv))).
    rewrite (fold_append_join (fun kv => propertyToSolid (fst kv) (snd kv))).
    unfold propertyToSolid. subst opening.
    destruct (selfClosingTags (name json)); eexists; rewrite !append_assoc;
      reflexivity.
  - apply keptBindings_keys.
  - intros Hnd key v. now apply keptProperties_class.
Qed.

Lemma class_attribute_rule_witness :
  fst (collectClassString Ex.emptyClass (stylesType DEFAULT_OPTIONS)) = None
  /\ (exists rest,
        Ex.render Ex.emptyClass
        = "<div " ++ EmptyString ++ " class=" ++ JS.dq ++ JS.dq ++ " " ++ rest)
  /\ forall key value,
       In (key, value) (keptProperties Ex.emptyClass) ->
       key = "class" \/ key = "className" ->
       value = EmptyString.
Proof.
  destruct (class_attribute_rule
              Reference.checkIsForNode Reference.filterEmptyTextNodes
              Reference.selfClosingTags (fun c => c) DEFAULT_OPTIONS Ex.emptyClass)
    as (Htable & Htext & _ & Hprop).
  split; [exact Htable|]. split.
  - destruct (Htext eq_refl eq_refl eq_refl) as (rest & H).
    exists rest. exact H.
  - apply Hprop. repeat constructor. intros [].
Defined.

(** C1 fails as stated: a [class] property that is the empty string is no
    source of class composition, and the element is written with
    [class=""]; next to a [class] binding, it is written after the
    [class] attribute of class composition. *)
Lemma empty_class_property_is_written :
  staticSources Ex.emptyClass = []
  /\ dynamicSources (stylesType DEFAULT_OPTIONS) Ex.emptyClass = []
  /\ fst (collectClassString Ex.emptyClass (stylesType DEFAULT_OPTIONS)) = None
  /\ Ex.render Ex.emptyClass = "<div  class=" ++ JS.dq ++ JS.dq ++ " ></div>"
  /\ Ex.render Ex2.emptyClassBound
     = "<div  class={x}  class=" ++ JS.dq ++ JS.dq ++ " ></div>".
Proof. repeat split. Qed.

(** ** The fragment of a [For] *)

(** C2.  A [For] over [items] with the item name [item] and the two
    children [<li />] and [<p />]: the fragment is opened after [return],
    inside the function, and closed after the [}}] that end the function;
    the children are joined by a comma. *)
Theorem for_fragment_is_split :
  Reference.checkIsForNode Ex2.twoChildFor = true
  /\ Ex.render Ex2.twoChildFor
     = "<For each={items}>"
       ++ JS.nl ++ "    {(item, _index) => {"
       ++ JS.nl ++ "      const index = _index();"
       ++ JS.nl ++ "      return <><li ></li>,<p ></p>}}"
       ++ JS.nl ++ "      </>"
       ++ JS.nl ++ "    </For>"
  /\ Ex.render (Ex.node "div" [] [] (children Ex2.twoChildFor))
     = "<div ><li ></li>" ++ JS.nl ++ "<p ></p></div>".
Proof. repeat split. Qed.
